(** * Reminder-bot: the Slack task/reminder handlers, embedded and verified

    The repository holds two variants of the same Bolt application:
    [src/server.js] (module [ServerJs] below) and the later rewrite that
    calls itself "Corrected and simplified" (module [Part000]).  Both are
    embedded side by side; the handlers are functions from the request
    payload and the outcome of the external calls (Postgres pool, Slack
    Web API) to the trace of effects they perform.

    JavaScript strings are sequences of UTF-16 code units, so that
    [.length] and [.slice] count what the source counts; payloads are JSON
    values. *)

From Stdlib Require Import ZArith NArith List Bool Lia String Ascii.
From Stdlib Require Import DecimalPos DecimalN DecimalZ Sorted Permutation.
Import ListNotations.

Set Warnings "-register-all".

(* ================================================================== *)
(** * JavaScript strings *)

Module Js.

(** A UTF-16 code unit. *)
Definition char16 := N.

(** A JavaScript string: its code units, so [length] is [.length]. *)
Definition jsstring := list char16.

(** ASCII literals of the source. *)
Definition lit (s : string) : jsstring :=
  List.map N_of_ascii (list_ascii_of_string s).

(** U+2014 EM DASH, one code unit. *)
Definition em_dash : char16 := 8212%N.
(** Line feed, the [\n] of the template literals. *)
Definition newline : char16 := 10%N.
(** U+2705, the check mark of the confirmation message. *)
Definition check_mark : char16 := 9989%N.
(** U+1F514, the bell: a surrogate pair. *)
Definition bell : jsstring := [55357%N; 56596%N].

Fixpoint str_eqb (a b : jsstring) : bool :=
  match a, b with
  | [], [] => true
  | x :: a', y :: b' => N.eqb x y && str_eqb a' b'
  | _, _ => false
  end.

(** [s.slice(0, n)] for [n >= 0]. *)
Definition slice0 (n : nat) (s : jsstring) : jsstring := firstn n s.

(** ** Decimal rendering of integers: [String(n)] *)

Definition digit_char (d : N) : char16 := (48 + d)%N.

Fixpoint uint_chars (u : Decimal.uint) : jsstring :=
  match u with
  | Decimal.Nil => []
  | Decimal.D0 u => digit_char 0 :: uint_chars u
  | Decimal.D1 u => digit_char 1 :: uint_chars u
  | Decimal.D2 u => digit_char 2 :: uint_chars u
  | Decimal.D3 u => digit_char 3 :: uint_chars u
  | Decimal.D4 u => digit_char 4 :: uint_chars u
  | Decimal.D5 u => digit_char 5 :: uint_chars u
  | Decimal.D6 u => digit_char 6 :: uint_chars u
  | Decimal.D7 u => digit_char 7 :: uint_chars u
  | Decimal.D8 u => digit_char 8 :: uint_chars u
  | Decimal.D9 u => digit_char 9 :: uint_chars u
  end.

Definition minus_sign : char16 := 45%N.

(** [String(n)] for an integer-valued number: SERIAL ids are 32-bit, far
    inside the range where JavaScript prints plain decimal digits. *)
Definition decimal (z : Z) : jsstring :=
  match Z.to_int z with
  | Decimal.Pos u => uint_chars u
  | Decimal.Neg u => minus_sign :: uint_chars u
  end.

Definition is_digit (c : char16) : bool := (48 <=? c)%N && (c <=? 57)%N.

(** A decimal string: an optional minus sign and at least one digit. *)
Definition is_decimal_string (s : jsstring) : bool :=
  match s with
  | [] => false
  | c :: r =>
      if N.eqb c minus_sign
      then negb (Nat.eqb (List.length r) 0) && forallb is_digit r
      else forallb is_digit s
  end.

(* ================================================================== *)
(** * JSON values, as [JSON.parse] hands them to the handlers *)

Inductive jsval : Type :=
| JUndefined
| JNull
| JBool (b : bool)
| JNum (n : Z)
| JStr (s : jsstring)
| JArr (elems : list jsval)
| JObj (fields : list (jsstring * jsval)).

(** ToBoolean. *)
Definition truthy (v : jsval) : bool :=
  match v with
  | JUndefined | JNull => false
  | JBool b => b
  | JNum n => negb (Z.eqb n 0)
  | JStr s => negb (Nat.eqb (List.length s) 0)
  | JArr _ | JObj _ => true
  end.

Definition nullish (v : jsval) : bool :=
  match v with
  | JUndefined | JNull => true
  | _ => false
  end.

Fixpoint assoc (k : jsstring) (fs : list (jsstring * jsval)) : jsval :=
  match fs with
  | [] => JUndefined
  | (k', v) :: fs' => if str_eqb k k' then v else assoc k fs'
  end.

(** [v.k] for a base value that is neither [null] nor [undefined], and a
    name [k] that is neither an index nor a member of a built-in prototype
    that the handlers could observe: only objects own such a property. *)
Definition prop (v : jsval) (k : jsstring) : jsval :=
  match v with
  | JObj fs => assoc k fs
  | _ => JUndefined
  end.

(** The values [o[k]] for [k] ranging over the enumerable own keys of [o],
    in enumeration order: what both [for (k in o) ... o[k]] and
    [Object.keys(o)] followed by [o[k]] visit (JSON values inherit no
    enumerable property).  A string enumerates its one-unit substrings. *)
Definition own_values (v : jsval) : list jsval :=
  match v with
  | JObj fs => List.map snd fs
  | JArr es => es
  | JStr s => List.map (fun c => JStr [c]) s
  | _ => []
  end.

(** [a || b]. *)
Definition js_or (a b : jsval) : jsval := if truthy a then a else b.

(** [a === 'literal']. *)
Definition strict_eq_str (a : jsval) (s : jsstring) : bool :=
  match a with
  | JStr t => str_eqb t s
  | _ => false
  end.

Fixpoint join_comma (l : list jsstring) : jsstring :=
  match l with
  | [] => []
  | [s] => s
  | s :: r => s ++ 44%N :: join_comma r
  end.

(** ToString, as template literals and [RegExp.prototype.test] apply it. *)
Fixpoint ToString (v : jsval) : jsstring :=
  match v with
  | JUndefined => lit "undefined"
  | JNull => lit "null"
  | JBool true => lit "true"
  | JBool false => lit "false"
  | JNum n => decimal n
  | JStr s => s
  | JArr es =>
      join_comma
        (List.map (fun e => if nullish e then [] else ToString e) es)
  | JObj _ => lit "[object Object]"
  end.

End Js.

(* ================================================================== *)
(** * Dates, rows, options and the effects of a handler *)

Module Fx.
Import Js.

(** A JavaScript [Date] as [toISOString] sees it: its UTC calendar fields. *)
Record jsdate := { year : Z; month : N; day : N }.

Definition pad_left (w : nat) (s : jsstring) : jsstring :=
  repeat (digit_char 0) (w - List.length s) ++ s.

(** The year of [toISOString]: four digits for 0..9999, otherwise a sign
    and six digits. *)
Definition iso_year (y : Z) : jsstring :=
  if ((0 <=? y) && (y <=? 9999))%Z then pad_left 4 (decimal y)
  else (if (y <? 0)%Z then minus_sign else 43%N)
         :: pad_left 6 (decimal (Z.abs y)).

Definition two_digits (n : N) : jsstring := pad_left 2 (decimal (Z.of_N n)).

(** [d.toISOString()], up to and including the [T] that ends the date. *)
Definition toISOString (d : jsdate) : jsstring :=
  iso_year (year d) ++ minus_sign :: two_digits (month d)
    ++ minus_sign :: two_digits (day d) ++ lit "T".

(** [d.toISOString().slice(0, 10)]: the date part is at least ten units
    long, so the time of day never shows. *)
Definition iso10 (d : jsdate) : jsstring := slice0 10 (toISOString d).

(** The [due_date] column as the driver returns it: a [Date], or (with
    the DATE parser switched off) its text. *)
Inductive due_value :=
| DueDate (d : jsdate)
| DueText (s : jsstring).

(** One row of a [SELECT] on [tasks], with the columns the handlers read. *)
Record row := { id : Z; task_text : jsstring; due_date : due_value }.

(** One entry of the [options] array: [{ text: { type: 'plain_text',
    text }, value }]. *)
Record select_option := { text : jsstring; value : jsstring }.

(** What a handler can throw: a [TypeError] of the engine, or the
    rejection of an external call with its message. *)
Inductive exn :=
| TypeError
| Rejected (message : jsstring).

Inductive query_result :=
| Rows (rows : list row)
| QueryError (message : jsstring).

(** The observable actions of a handler, in the order it performs them. *)
Inductive event :=
| Ack (options : option (list select_option))
| ViewsOpen (trigger_id : jsval) (callback_id : jsstring)
| SelectOpenTasks (user_id : jsval)
| SelectTask (task_id : jsval)
| InsertTask (params : list jsval)
| PostMessage (channel : jsval) (body : jsstring)
| PostEphemeral (channel user : jsval) (body : jsstring)
| ConsoleError (tag : jsstring).

(** The outcome of every external call the handlers await: [None] when
    the promise resolves, [Some message] when it rejects. *)
Record world := {
  views_open : jsval -> jsstring -> option jsstring;
  select_open_tasks : jsval -> query_result;
  select_task : jsval -> query_result;
  insert_task : list jsval -> option jsstring;
  chat_postMessage : jsval -> jsstring -> option jsstring;
  chat_postEphemeral : jsval -> jsval -> jsstring -> option jsstring;
  (** the engine's wording of a [TypeError], read through [err.message] *)
  type_error_message : jsstring
}.

Inductive outcome (A : Type) :=
| Done (a : A)
| Threw (e : exn).
Arguments Done {A} a.
Arguments Threw {A} e.

(** A computation: the trace it leaves and how it ends. *)
Definition M (A : Type) : Type := (list event * outcome A)%type.

Definition ret {A} (a : A) : M A := ([], Done a).

Definition bind {A B} (m : M A) (f : A -> M B) : M B :=
  match m with
  | (t, Done a) => let (t', r) := f a in (t ++ t', r)
  | (t, Threw e) => (t, Threw e)
  end.

Definition throw {A} (e : exn) : M A := ([], Threw e).

(** [try { m } catch (err) { h err }]. *)
Definition try_catch {A} (m : M A) (h : exn -> M A) : M A :=
  match m with
  | (t, Threw e) => let (t', r) := h e in (t ++ t', r)
  | done => done
  end.

Definition emit (ev : event) : M unit := ([ev], Done tt).

(** An awaited call to the outside: it is made, then resolves or rejects. *)
Definition await (ev : event) (r : option jsstring) : M unit :=
  ([ev], match r with None => Done tt | Some m => Threw (Rejected m) end).

Definition await_query (ev : event) (r : query_result) : M (list row) :=
  ([ev], match r with Rows rs => Done rs | QueryError m => Threw (Rejected m) end).

(** [v.k]: a [TypeError] on [null] and [undefined]. *)
Definition get (v : jsval) (k : string) : M jsval :=
  if nullish v then throw TypeError else ret (prop v (lit k)).

(** [v?.k]. *)
Definition get_opt (v : jsval) (k : string) : jsval :=
  if nullish v then JUndefined else prop v (lit k).

(** [err.message]. *)
Definition err_message (w : world) (e : exn) : jsstring :=
  match e with
  | TypeError => type_error_message w
  | Rejected m => m
  end.

Definition trace {A} (m : M A) : list event := fst m.
Definition result {A} (m : M A) : outcome A := snd m.

Definition is_ack (ev : event) : bool :=
  match ev with Ack _ => true | _ => false end.

Definition ack_count (t : list event) : nat := List.length (filter is_ack t).

(** The options carried by the acknowledgments of a trace. *)
Fixpoint acked_options (t : list event) : list (list select_option) :=
  match t with
  | [] => []
  | Ack (Some os) :: t' => os :: acked_options t'
  | _ :: t' => acked_options t'
  end.

End Fx.

Declare Scope fx_scope.
Delimit Scope fx_scope with fx.
Notation "x <- m ;; k" := (Fx.bind m (fun x => k))
  (at level 61, m at next level, right associativity) : fx_scope.
Notation "m ;;; k" := (Fx.bind m (fun _ => k))
  (at level 61, right associativity) : fx_scope.

(* ================================================================== *)
(** * What the two variants share: placeholders, texts, the date regex *)

Module Common.
Import Js Fx.

(** [' — due '] of the label template. *)
Definition due_infix : jsstring := lit " " ++ em_dash :: lit " due ".

Definition ellipsis : jsstring := lit "...".

Definition err_option : select_option :=
  {| text := lit "Error loading tasks"; value := lit "err" |}.

(** [a && b]. *)
Definition js_and (a b : jsval) : jsval := if truthy a then b else a.

(** [rows.map(f)] for a callback that may throw. *)
Fixpoint map_rows {B} (f : row -> M B) (rs : list row) : M (list B) :=
  match rs with
  | [] => ret []
  | r :: rs' =>
      (o <- f r ;; os <- map_rows f rs' ;; ret (o :: os))%fx
  end.

(** The first loop body of both option handlers:
    [val && val.type === 'users_select' && val.selected_user]. *)
Definition is_selected_user_picker (val : jsval) : bool :=
  truthy val
  && strict_eq_str (prop val (lit "type")) (lit "users_select")
  && truthy (prop val (lit "selected_user")).

(** The inner loop: the selection of the first picker among the fields of
    one block, [undefined] when the loop ends without a [break]. *)
Fixpoint scan_fields (vals : list jsval) : jsval :=
  match vals with
  | [] => JUndefined
  | val :: rest =>
      if is_selected_user_picker val then prop val (lit "selected_user")
      else scan_fields rest
  end.

(** The atoms of [/^\d{4}-\d{2}-\d{2}$/]. *)
Inductive atom := Digit | Dash.

Definition atom_matches (a : atom) (c : char16) : bool :=
  match a with
  | Digit => is_digit c
  | Dash => N.eqb c minus_sign
  end.

(** An anchored sequence of atoms: every unit is consumed. *)
Fixpoint matches_exactly (p : list atom) (s : jsstring) : bool :=
  match p, s with
  | [], [] => true
  | a :: p', c :: s' => atom_matches a c && matches_exactly p' s'
  | _, _ => false
  end.

Definition date_pattern : list atom :=
  repeat Digit 4 ++ [Dash] ++ repeat Digit 2 ++ [Dash] ++ repeat Digit 2.

(** [/^\d{4}-\d{2}-\d{2}$/.test(v)]. *)
Definition date_regex_test (v : jsval) : bool :=
  matches_exactly date_pattern (ToString v).

(** [`✅ Your task was saved:\n*${task}*\nDue: ${due}`]. *)
Definition saved_text (task due : jsval) : jsstring :=
  check_mark :: lit " Your task was saved:" ++ newline :: lit "*"
    ++ ToString task ++ lit "*" ++ newline :: lit "Due: " ++ ToString due.

(** [`🔔 *Reminder* about your task:\n*${text}*\nDue: ${due}\n\n${msg || ''}`]. *)
Definition reminder_text (task_text due : jsstring) (customMsg : jsval)
  : jsstring :=
  bell ++ lit " *Reminder* about your task:" ++ newline :: lit "*"
    ++ task_text ++ lit "*" ++ newline :: lit "Due: " ++ due
    ++ newline :: newline :: ToString (js_or customMsg (JStr [])).

(** [`Reminder sent to <@${user}> for task id ${taskId}.`]. *)
Definition sent_text (user taskId : jsval) : jsstring :=
  lit "Reminder sent to <@" ++ ToString user ++ lit "> for task id "
    ++ ToString taskId ++ lit ".".

(** [rows[0]] after [rowCount === 0] was excluded. *)
Definition first_row (rs : list row) : M row :=
  match rs with
  | r :: _ => ret r
  | [] => throw TypeError
  end.

End Common.

(* ================================================================== *)
(** * src/server.js *)

Module ServerJs.
Import Js Fx Common.
Local Open Scope fx_scope.

Definition no_user_option : select_option :=
  {| text := lit "Pick a user first"; value := lit "no_user" |}.

Definition no_tasks_option : select_option :=
  {| text := lit "No tasks for that user"; value := lit "no_tasks" |}.

(** The outer [for (const blk in vs)] loop; [for-in] over [null] or a
    primitive runs no iteration. *)
Fixpoint scan_blocks (blocks : list jsval) : jsval :=
  match blocks with
  | [] => JUndefined
  | block :: rest =>
      let selectedUser := scan_fields (own_values block) in
      if truthy selectedUser then selectedUser else scan_blocks rest
  end.

(** Lines 164-177: the selected user of the echoed view state. *)
Definition find_selected_user (body : jsval) : M jsval :=
  view <- get body "view" ;;
  if truthy view && truthy (prop view (lit "state")) then
    let vs := prop (prop view (lit "state")) (lit "values") in
    ret (scan_blocks (own_values vs))
  else ret JUndefined.

(** Lines 192-193, once [r.due_date.toISOString()] returned for the
    [Date] [d]. *)
Definition dated_option (r : row) (d : jsdate) : select_option :=
  let label := task_text r ++ due_infix ++ iso10 d in
  {| text := slice0 75 label; value := decimal (id r) |}.

(** Lines 191-194: one option per row; a [due_date] that is no [Date] has
    no [toISOString]. *)
Definition option_of_row (r : row) : M select_option :=
  match due_date r with
  | DueDate d => ret (dated_option r d)
  | DueText _ => throw TypeError
  end.

Section Handlers.
Variable w : world.

(** [app.command('/addtask')], and with another callback id
    [app.command('/reminduser')]. *)
Definition open_modal_command (callback_id tag : string) (body : jsval)
  : M unit :=
  emit (Ack None) ;;;
  try_catch
    (trigger <- get body "trigger_id" ;;
     await (ViewsOpen trigger (lit callback_id))
           (views_open w trigger (lit callback_id)))
    (fun _ => emit (ConsoleError (lit tag))).

Definition addtask_command := open_modal_command "add_task_view" "open modal error".
Definition reminduser_command :=
  open_modal_command "send_reminder_view" "open remind modal error".

(** [app.view('add_task_view')]. *)
Definition add_task_view (view body : jsval) : M unit :=
  emit (Ack None) ;;;
  u <- get body "user" ;;
  user <- get u "id" ;;
  st <- get view "state" ;;
  vals <- get st "values" ;;
  tb <- get vals "task_block" ;;
  ti <- get tb "task_input" ;;
  task <- get ti "value" ;;
  db <- get vals "date_block" ;;
  di <- get db "date_input" ;;
  dueDate <- get di "value" ;;
  let channel := js_or (prop view (lit "private_metadata")) JNull in
  let params := [user; task; dueDate; user; channel] in
  try_catch (await (InsertTask params) (insert_task w params))
            (fun _ => emit (ConsoleError (lit "DB insert error"))) ;;;
  let msg := saved_text task dueDate in
  try_catch (await (PostMessage user msg) (chat_postMessage w user msg))
            (fun _ => emit (ConsoleError (lit "DM user error"))).

(** [app.options('task_select')]. *)
Definition options_task_select (body : jsval) : M unit :=
  try_catch
    (selectedUser <- find_selected_user body ;;
     if negb (truthy selectedUser) then emit (Ack (Some [no_user_option]))
     else
       rows <- await_query (SelectOpenTasks selectedUser)
                           (select_open_tasks w selectedUser) ;;
       optionsList <- map_rows option_of_row rows ;;
       if Nat.eqb (List.length optionsList) 0
       then emit (Ack (Some [no_tasks_option]))
       else emit (Ack (Some optionsList)))
    (fun _ =>
       emit (ConsoleError (lit "options handler error")) ;;;
       emit (Ack (Some [err_option]))).

(** [app.view('send_reminder_view')]. *)
Definition send_reminder_view (view body : jsval) : M unit :=
  emit (Ack None) ;;;
  u <- get body "user" ;;
  ceo <- get u "id" ;;
  st <- get view "state" ;;
  vals <- get st "values" ;;
  usb <- get vals "user_select_block" ;;
  us <- get usb "user_select" ;;
  userSelect <- get us "selected_user" ;;
  tsb <- get vals "task_select_block" ;;
  ts <- get tsb "task_select" ;;
  so <- get ts "selected_option" ;;
  let taskId := js_and so (prop so (lit "value")) in
  let cmb := prop vals (lit "custom_message_block") in
  customMsg <- (if truthy cmb
                then cm <- get cmb "custom_message" ;; get cm "value"
                else ret cmb) ;;
  try_catch
    (rows <- await_query (SelectTask taskId) (select_task w taskId) ;;
     if Nat.eqb (List.length rows) 0 then
       let msg := lit "Task not found." in
       await (PostEphemeral ceo ceo msg) (chat_postEphemeral w ceo ceo msg)
     else
       task <- first_row rows ;;
       due <- match due_date task with
              | DueDate d => ret (iso10 d)
              | DueText _ => throw TypeError
              end ;;
       let msg := reminder_text (task_text task) due customMsg in
       await (PostMessage userSelect msg) (chat_postMessage w userSelect msg) ;;;
       let conf := sent_text userSelect taskId in
       await (PostEphemeral ceo ceo conf) (chat_postEphemeral w ceo ceo conf))
    (fun err =>
       emit (ConsoleError (lit "send reminder error")) ;;;
       let msg := lit "Failed to send reminder: " ++ err_message w err in
       await (PostEphemeral ceo ceo msg) (chat_postEphemeral w ceo ceo msg)).

End Handlers.
End ServerJs.

(* ================================================================== *)
(** * src/unnamed/part_000: the "corrected and simplified" variant *)

Module Part000.
Import Js Fx Common.
Local Open Scope fx_scope.

Definition no_user_option : select_option :=
  {| text := lit "Please select a user first"; value := lit "no_user" |}.

Definition no_tasks_option : select_option :=
  {| text := lit "No tasks found for that user"; value := lit "no_tasks" |}.

(** The outer [for (const blockId of Object.keys(values))] loop:
    [Object.keys(block)] throws on [null] and [undefined]. *)
Fixpoint scan_blocks (blocks : list jsval) : M jsval :=
  match blocks with
  | [] => ret JUndefined
  | block :: rest =>
      if nullish block then throw TypeError
      else
        let selectedUser := scan_fields (own_values block) in
        if truthy selectedUser then ret selectedUser else scan_blocks rest
  end.

(** Lines 184-198. *)
Definition find_selected_user (body : jsval) : M jsval :=
  view <- get body "view" ;;
  if truthy view && truthy (prop view (lit "state"))
     && truthy (prop (prop view (lit "state")) (lit "values")) then
    let values := prop (prop view (lit "state")) (lit "values") in
    scan_blocks (own_values values)
  else ret JUndefined.

(** Line 227: [instanceof Date ? toISOString().slice(0, 10) : String(...)]. *)
Definition due_text (d : due_value) : jsstring :=
  match d with
  | DueDate d => iso10 d
  | DueText s => s
  end.

(** Line 228. *)
Definition label_of_text (task_text : jsstring) : jsstring :=
  if Nat.ltb 75 (List.length task_text)
  then slice0 72 task_text ++ ellipsis
  else task_text.

(** Lines 225-231: one option per row. *)
Definition option_of_row (r : row) : select_option :=
  let due := due_text (due_date r) in
  let label := label_of_text (task_text r) in
  {| text := label ++ due_infix ++ due; value := decimal (id r) |}.

Definition invalid_task_notice : jsstring :=
  lit "Task not saved. Ensure you provided a task and date in YYYY-MM-DD format.".

Definition missing_selection_notice : jsstring :=
  lit "Please select both a user and a task.".

(** [values?.block?.action?.key]. *)
Definition field (vals : jsval) (block action key : string) : jsval :=
  get_opt (get_opt (get_opt vals block) action) key.

(** Line 93: [taskText]. *)
Definition task_text_of (vals : jsval) : jsval :=
  js_or (field vals "task_block" "task_input" "value") (JStr []).

(** Line 94: [dueDateRaw]. *)
Definition due_date_of (vals : jsval) : jsval :=
  js_or (field vals "date_block" "date_input" "value") (JStr []).

(** Line 250: [userSelected]. *)
Definition user_selected_of (vals : jsval) : jsval :=
  field vals "user_select_block" "user_select" "selected_user".

(** Lines 251-252: [taskId]. *)
Definition task_id_of (vals : jsval) : jsval :=
  let taskOption := field vals "task_select_block" "task_select" "selected_option" in
  if truthy taskOption then prop taskOption (lit "value") else JNull.

(** Line 253: [customMsg]. *)
Definition custom_message_of (vals : jsval) : jsval :=
  js_or (field vals "custom_message_block" "custom_message" "value") (JStr []).

Section Handlers.
Variable w : world.

(** [app.command('/addtask')] and [app.command('/reminduser')]. *)
Definition open_modal_command (callback_id tag : string) (body : jsval)
  : M unit :=
  emit (Ack None) ;;;
  try_catch
    (trigger <- get body "trigger_id" ;;
     await (ViewsOpen trigger (lit callback_id))
           (views_open w trigger (lit callback_id)))
    (fun _ => emit (ConsoleError (lit tag))).

Definition addtask_command :=
  open_modal_command "add_task_view" "Error opening addtask modal:".
Definition reminduser_command :=
  open_modal_command "send_reminder_view" "open remind modal error".

(** [try { await client.chat.postEphemeral(...) } catch (e) { console.error(tag, e) }]. *)
Definition try_ephemeral (user : jsval) (msg : jsstring) (tag : string)
  : M unit :=
  try_catch (await (PostEphemeral user user msg) (chat_postEphemeral w user user msg))
            (fun _ => emit (ConsoleError (lit tag))).

(** Line 97: the validation of a task-creation submission. *)
Definition task_submission_ok (taskText dueDateRaw : jsval) : bool :=
  truthy taskText && date_regex_test dueDateRaw.

(** [app.view('add_task_view')]. *)
Definition add_task_view (view body : jsval) : M unit :=
  emit (Ack None) ;;;
  u <- get body "user" ;;
  user <- get u "id" ;;
  st <- get view "state" ;;
  vals <- get st "values" ;;
  let taskText := task_text_of vals in
  let dueDateRaw := due_date_of vals in
  if negb (task_submission_ok taskText dueDateRaw) then
    try_ephemeral user invalid_task_notice "error sending ephemeral"
  else
    let params := [user; taskText; dueDateRaw; user] in
    let msg := saved_text taskText dueDateRaw in
    try_catch
      (await (InsertTask params) (insert_task w params) ;;;
       await (PostMessage user msg) (chat_postMessage w user msg))
      (fun _ =>
         emit (ConsoleError (lit "DB insert or DM error")) ;;;
         try_ephemeral user (lit "Failed to save task (server error).")
                       "ephemeral send failed").

(** [app.options('task_select')]. *)
Definition options_task_select (body : jsval) : M unit :=
  try_catch
    (selectedUser <- find_selected_user body ;;
     if negb (truthy selectedUser) then emit (Ack (Some [no_user_option]))
     else
       rows <- await_query (SelectOpenTasks selectedUser)
                           (select_open_tasks w selectedUser) ;;
       if Nat.eqb (List.length rows) 0
       then emit (Ack (Some [no_tasks_option]))
       else emit (Ack (Some (List.map option_of_row rows))))
    (fun _ =>
       emit (ConsoleError (lit "options handler error")) ;;;
       emit (Ack (Some [err_option]))).

(** Line 255: the validation of a reminder submission. *)
Definition reminder_submission_ok (userSelected taskId : jsval) : bool :=
  truthy userSelected && truthy taskId.

(** [app.view('send_reminder_view')]. *)
Definition send_reminder_view (view body : jsval) : M unit :=
  emit (Ack None) ;;;
  u <- get body "user" ;;
  ceo <- get u "id" ;;
  st <- get view "state" ;;
  vals <- get st "values" ;;
  let userSelected := user_selected_of vals in
  let taskId := task_id_of vals in
  let customMsg := custom_message_of vals in
  if negb (reminder_submission_ok userSelected taskId) then
    try_ephemeral ceo missing_selection_notice "ephemeral send failed"
  else
    try_catch
      (rows <- await_query (SelectTask taskId) (select_task w taskId) ;;
       if Nat.eqb (List.length rows) 0 then
         let msg := lit "Task not found (may have been deleted)." in
         await (PostEphemeral ceo ceo msg) (chat_postEphemeral w ceo ceo msg)
       else
         task <- first_row rows ;;
         let due := due_text (due_date task) in
         let msg := reminder_text (task_text task) due customMsg in
         await (PostMessage userSelected msg)
               (chat_postMessage w userSelected msg) ;;;
         let conf := sent_text userSelected taskId in
         await (PostEphemeral ceo ceo conf) (chat_postEphemeral w ceo ceo conf))
      (fun _ =>
         emit (ConsoleError (lit "send reminder error")) ;;;
         try_ephemeral ceo (lit "Failed to send reminder (server error).")
                       "ephemeral error").

End Handlers.
End Part000.

(* ================================================================== *)
(** * Process start-up of the two variants *)

Module Startup.
Import Js.

(** [process.env]: a variable is a string or [undefined]. *)
Record environment := {
  SLACK_BOT_TOKEN : option jsstring;
  SLACK_SIGNING_SECRET : option jsstring;
  DATABASE_URL : option jsstring;
  PORT : option jsstring
}.

(** The port handed to the HTTP server; [ParsedPort s] is
    [parseInt(s, 10)]. *)
Inductive port_value :=
| DefaultPort
| EnvPort (raw : jsstring)
| ParsedPort (raw : jsstring).

Inductive boot_event :=
| LogError (tag : jsstring)
| NewReceiver (signingSecret : option jsstring)
| NewApp (token : option jsstring)
| NewPool (connectionString : option jsstring)
| InitDB
| Listen (port : port_value)
| ExitProcess (code : Z).

(** Whether the library constructors return ([true]) or throw, and
    whether the [CREATE TABLE] of [initDB] succeeds. *)
Record libraries := {
  receiver_constructs : option jsstring -> bool;
  app_constructs : option jsstring -> bool;
  pool_constructs : option jsstring -> bool;
  initdb_succeeds : bool
}.

(** [!x] for an environment variable. *)
Definition missing (x : option jsstring) : bool :=
  match x with
  | None => true
  | Some s => Nat.eqb (List.length s) 0
  end.

(** An exception that nothing catches ends the process with status 1. *)
Definition uncaught : list boot_event := [ExitProcess 1].

(** The module body shared by both files once configuration is read:
    receiver, app, pool, [initDB()] started, then the server is started in
    the same tick; [after_initdb] is what the [.catch] of [initDB] does
    when the promise later rejects. *)
Definition construct_and_listen (lib : libraries) (e : environment)
  (port : port_value) (after_initdb : list boot_event) : list boot_event :=
  NewReceiver (SLACK_SIGNING_SECRET e) ::
  if negb (receiver_constructs lib (SLACK_SIGNING_SECRET e)) then uncaught
  else
    NewApp (SLACK_BOT_TOKEN e) ::
    if negb (app_constructs lib (SLACK_BOT_TOKEN e)) then uncaught
    else
      NewPool (DATABASE_URL e) ::
      if negb (pool_constructs lib (DATABASE_URL e)) then uncaught
      else
        InitDB :: Listen port ::
        if initdb_succeeds lib then [] else after_initdb.

(** src/server.js, lines 6-40 and 250-253: no check of the environment. *)
Definition server_js (lib : libraries) (e : environment) : list boot_event :=
  let port := match PORT e with
              | Some s => if Nat.eqb (List.length s) 0 then DefaultPort else EnvPort s
              | None => DefaultPort
              end in
  construct_and_listen lib e port [LogError (lit "DB init error")].

(** src/unnamed/part_000, lines 6-53 and 290-292. *)
Definition part_000 (lib : libraries) (e : environment) : list boot_event :=
  let port := match PORT e with
              | Some s => if Nat.eqb (List.length s) 0 then DefaultPort else ParsedPort s
              | None => DefaultPort
              end in
  if missing (SLACK_BOT_TOKEN e) || missing (SLACK_SIGNING_SECRET e)
     || missing (DATABASE_URL e)
  then [LogError (lit "Missing required environment variables. Set SLACK_BOT_TOKEN, SLACK_SIGNING_SECRET and DATABASE_URL.");
        ExitProcess 1]
  else construct_and_listen lib e port
         [LogError (lit "DB init failed"); ExitProcess 1].

Definition is_listen (ev : boot_event) : bool :=
  match ev with Listen _ => true | _ => false end.

Definition is_exit_nonzero (ev : boot_event) : bool :=
  match ev with ExitProcess c => negb (Z.eqb c 0) | _ => false end.

(** The process exits with a non-zero status and never started to
    listen. *)
Definition exits_before_serving (t : list boot_event) : bool :=
  existsb is_exit_nonzero t && negb (existsb is_listen t).

End Startup.

(* ================================================================== *)
(** * The tasks table behind the pool *)

Module Store.
Import Js Fx.

(** A row of [tasks] with the columns of the [CREATE TABLE] that the
    queries mention. *)
Record task := {
  t_id : Z;
  t_user_id : jsstring;
  t_task_text : jsstring;
  t_due_date : jsdate;
  t_completed : bool
}.

(** Chronological order on calendar dates. *)
Definition date_compare (a b : jsdate) : comparison :=
  match Z.compare (year a) (year b) with
  | Eq => match N.compare (month a) (month b) with
          | Eq => N.compare (day a) (day b)
          | c => c
          end
  | c => c
  end.

Definition date_ltb (a b : jsdate) : bool :=
  match date_compare a b with Lt => true | _ => false end.



(** [WHERE user_id = $1 AND completed = false]. *)
Definition open_for (uid : jsstring) (t : task) : bool :=
  str_eqb (t_user_id t) uid && negb (t_completed t).

(** [ORDER BY due_date ASC], ties in table order: insertion behind the
    strictly earlier rows only. *)
Fixpoint insert_by_due (t : task) (l : list task) : list task :=
  match l with
  | [] => [t]
  | x :: r =>
      if date_ltb (t_due_date x) (t_due_date t)
      then x :: insert_by_due t r
      else t :: x :: r
  end.

Fixpoint order_by_due_date (l : list task) : list task :=
  match l with
  | [] => []
  | t :: r => insert_by_due t (order_by_due_date r)
  end.

(** [SELECT id, task_text, due_date]. *)
Definition row_of_task (t : task) : row :=
  {| id := t_id t; task_text := t_task_text t; due_date := DueDate (t_due_date t) |}.

(** [LIMIT 50]. *)
Definition row_limit : nat := 50.

(** The tasks selected by the option handlers' query on a table. *)
Definition open_tasks (tbl : list task) (uid : jsstring) : list task :=
  firstn row_limit (order_by_due_date (filter (open_for uid) tbl)).

Definition query_open_tasks (tbl : list task) (uid : jsstring) : list row :=
  List.map row_of_task (open_tasks tbl uid).



End Store.

(* ================================================================== *)
(** * The vocabulary of the specification *)

Module Spec.
Import Js Fx Common.

(** An object literal with ASCII keys. *)
Definition obj (fields : list (string * jsval)) : jsval :=
  JObj (List.map (fun kv => (lit (fst kv), snd kv)) fields).

(** A submission whose invoker is [user] and whose form state is [vals]:
    [body.user.id] and [view.state.values] can be read. *)
Definition envelope (view body user vals : jsval) : Prop :=
  exists u st,
    get body "user" = ret u /\ get u "id" = ret user /\
    get view "state" = ret st /\ get st "values" = ret vals.

(** The form state echoed with an option request, [undefined] when the
    view or its state is missing. *)
Definition snapshot_values (body : jsval) : jsval :=
  prop (prop (prop body (lit "view")) (lit "state")) (lit "values").

(** No field of the user-picker kind carries a non-empty selection. *)
Definition no_picker_selected (body : jsval) : Prop :=
  forall block val,
    In block (own_values (snapshot_values body)) ->
    In val (own_values block) ->
    is_selected_user_picker val = false.

(** Every block of the snapshot is an object or a primitive, not [null]. *)
Definition blocks_present (body : jsval) : Prop :=
  forall block,
    In block (own_values (snapshot_values body)) -> nullish block = false.

Definition has_date (r : row) : Prop :=
  exists d, due_date r = DueDate d.

(** White space as [String.prototype.trim] strips it (the ASCII part and
    the no-break space). *)
Definition is_space (c : char16) : bool :=
  N.eqb c 32 || N.eqb c 9 || N.eqb c 10 || N.eqb c 11 || N.eqb c 12
  || N.eqb c 13 || N.eqb c 160.

Fixpoint trim_start (s : jsstring) : jsstring :=
  match s with
  | c :: r => if is_space c then trim_start r else s
  | [] => []
  end.

(** [s.trim()], the reading of "non-empty after trimming". *)
Definition trim (s : jsstring) : jsstring :=
  rev (trim_start (rev (trim_start s))).

(** Four digits, dash, two digits, dash, two digits. *)
Definition lexical_date (s : jsstring) : Prop :=
  exists y1 y2 y3 y4 m1 m2 d1 d2,
    s = [y1; y2; y3; y4; minus_sign; m1; m2; minus_sign; d1; d2] /\
    Forall (fun c => is_digit c = true) [y1; y2; y3; y4; m1; m2; d1; d2].

Definition is_post_message (ev : event) : bool :=
  match ev with PostMessage _ _ => true | _ => false end.

Definition is_store_access (ev : event) : bool :=
  match ev with
  | SelectOpenTasks _ | SelectTask _ | InsertTask _ => true
  | _ => false
  end.

(** The reserved option values of the placeholders. *)
Definition is_sentinel (v : jsval) : bool :=
  strict_eq_str v (lit "no_user") || strict_eq_str v (lit "no_tasks")
  || strict_eq_str v (lit "err").

(** A reminder submission was rejected as the specification words it: no
    message went out, and the invoker was told which selection is
    missing. *)
Definition rejected_naming_fields (invoker : jsval) (t : list event) : Prop :=
  existsb is_post_message t = false /\
  In (PostEphemeral invoker invoker Part000.missing_selection_notice) t.


(** The trace of an option request whose query or mapping failed. *)
Definition options_error_trace (su : jsval) : list event :=
  [SelectOpenTasks su; ConsoleError (lit "options handler error");
   Ack (Some [err_option])].

(** The first action of a trace is its acknowledgment. *)
Definition ack_first (t : list event) : Prop :=
  exists o rest, t = Ack o :: rest.

(** Acknowledged exactly once, as the first action. *)
Definition acked_first_once (t : list event) : Prop :=
  exists rest, t = Ack None :: rest /\ ack_count rest = 0.

(** Acknowledged exactly once, as the last action, with options. *)
Definition acked_last_once (t : list event) : Prop :=
  exists before opts, t = before ++ [Ack (Some opts)] /\ ack_count before = 0.

(** A computation that acknowledges nothing. *)
Definition quiet {A} (m : M A) : Prop := ack_count (trace m) = 0.

(** A task-creation submission as part_000 accepts it: the task field
    holds a non-empty value, taken as it is, and the date field reads four
    digits, dash, two digits, dash, two digits. *)
Definition task_submission_valid (vals : jsval) : Prop :=
  truthy (Part000.field vals "task_block" "task_input" "value") = true
  /\ lexical_date (ToString (Part000.due_date_of vals)).

(** The events that follow a call only when it was rejected. *)
Definition when_rejected (r : option jsstring) (t : list event) : list event :=
  match r with
  | Some _ => t
  | None => []
  end.

(** A string of exactly [w] decimal digits. *)
Definition digits_exactly (w : nat) (s : jsstring) : bool :=
  Nat.eqb (List.length s) w && forallb is_digit s.

End Spec.

(* ================================================================== *)
(** * Concrete requests and worlds *)

Module Samples.
Import Js Fx Common Spec.
Local Open Scope string_scope.

(** A world in which every call resolves and both queries return [rows]. *)
Definition calm (rows : list row) : world :=
  {| views_open := fun _ _ => None;
     select_open_tasks := fun _ => Rows rows;
     select_task := fun _ => Rows rows;
     insert_task := fun _ => None;
     chat_postMessage := fun _ _ => None;
     chat_postEphemeral := fun _ _ _ => None;
     type_error_message := lit "Cannot read properties of undefined" |}.

(** A world whose pool rejects every statement. *)
Definition store_down : world :=
  {| views_open := fun _ _ => None;
     select_open_tasks := fun _ => QueryError (lit "connection refused");
     select_task := fun _ => QueryError (lit "invalid input syntax for type integer");
     insert_task := fun _ => Some (lit "connection refused");
     chat_postMessage := fun _ _ => None;
     chat_postEphemeral := fun _ _ _ => None;
     type_error_message := lit "Cannot read properties of undefined" |}.

Definition U1 : jsval := JStr (lit "U1").
Definition CEO : jsval := JStr (lit "U0").

Definition user_picker (selected : jsval) : jsval :=
  obj [("type", JStr (lit "users_select")); ("selected_user", selected)].

(** The body of an option request for a form state [vals]. *)
Definition options_body (vals : jsval) : jsval :=
  obj [("view", obj [("state", obj [("values", vals)])])].

Definition picked_U1 : jsval :=
  obj [("user_select_block", obj [("user_select", user_picker U1)])].

(** [{ "b": null }]: a block that is [null]. *)
Definition null_block : jsval := obj [("b", JNull)].

Definition view_of (vals : jsval) : jsval := obj [("state", obj [("values", vals)])].
Definition body_of (user : jsval) : jsval := obj [("user", obj [("id", user)])].

Definition text_input (v : jsval) : jsval :=
  obj [("type", JStr (lit "plain_text_input")); ("value", v)].

(** The state of the add-task form. *)
Definition task_form (task date : jsval) : jsval :=
  obj [("task_block", obj [("task_input", text_input task)]);
       ("date_block", obj [("date_input", text_input date)])].

(** The state of the reminder form: the selected user and option value. *)
Definition reminder_form (user option_value : jsval) : jsval :=
  obj [("user_select_block", obj [("user_select", user_picker user)]);
       ("task_select_block",
        obj [("task_select",
              obj [("type", JStr (lit "external_select"));
                   ("selected_option",
                    if nullish option_value then JNull
                    else obj [("value", option_value)])])]);
       ("custom_message_block", obj [("custom_message", text_input JNull)])].

Definition day (y : Z) (m d : N) : jsdate := {| year := y; month := m; day := d |}.

Definition ship_report : row :=
  {| id := 7; task_text := lit "Ship report"; due_date := DueDate (day 2025 3 1) |}.

(** A task text of [n] letters. *)
Definition letters (n : nat) : jsstring := repeat 97%N n.

Definition task_of_length (n : nat) : Store.task :=
  {| Store.t_id := 1; Store.t_user_id := lit "U1"; Store.t_task_text := letters n;
     Store.t_due_date := day 2025 3 1; Store.t_completed := false |}.

Definition all_set : Startup.environment :=
  {| Startup.SLACK_BOT_TOKEN := Some (lit "xoxb-1");
     Startup.SLACK_SIGNING_SECRET := Some (lit "secret");
     Startup.DATABASE_URL := Some (lit "postgres://db/tasks");
     Startup.PORT := None |}.

Definition no_database_url : Startup.environment :=
  {| Startup.SLACK_BOT_TOKEN := Some (lit "xoxb-1");
     Startup.SLACK_SIGNING_SECRET := Some (lit "secret");
     Startup.DATABASE_URL := None;
     Startup.PORT := None |}.

(** Libraries whose constructors return; the pool connects lazily, so it
    is built whatever its connection string. *)
Definition lenient : Startup.libraries :=
  {| Startup.receiver_constructs := fun _ => true;
     Startup.app_constructs := fun _ => true;
     Startup.pool_constructs := fun _ => true;
     Startup.initdb_succeeds := true |}.

(** A table with two open tasks of U1 out of due order, a completed task
    of U1 and an open task of another user. *)
Definition small_table : list Store.task :=
  [ {| Store.t_id := 3; Store.t_user_id := lit "U1";
       Store.t_task_text := lit "Book venue";
       Store.t_due_date := day 2025 3 2; Store.t_completed := false |};
    {| Store.t_id := 1; Store.t_user_id := lit "U1";
       Store.t_task_text := lit "Ship report";
       Store.t_due_date := day 2025 3 1; Store.t_completed := false |};
    {| Store.t_id := 2; Store.t_user_id := lit "U1";
       Store.t_task_text := lit "Old task";
       Store.t_due_date := day 2025 2 1; Store.t_completed := true |};
    {| Store.t_id := 4; Store.t_user_id := lit "U2";
       Store.t_task_text := lit "Other";
       Store.t_due_date := day 2025 1 1; Store.t_completed := false |} ].

(** A world whose pool answers the option query from [small_table]. *)
Definition small_world : world :=
  calm (Store.query_open_tasks small_table (lit "U1")).

(** A form state with a [null] block before the user picker. *)
Definition null_then_picker : jsval :=
  obj [("b", JNull);
       ("user_select_block", obj [("user_select", user_picker U1)])].

(** A form state whose first block holds a text input and whose second
    block holds two pickers, the first of them without a selection. *)
Definition two_pickers : jsval :=
  obj [("note_block", obj [("note", text_input (JStr (lit "hello")))]);
       ("user_select_block",
        obj [("empty_picker", user_picker JNull);
             ("user_select", user_picker U1);
             ("late_picker", user_picker CEO)])].

(** The same libraries with a database that cannot be reached. *)
Definition database_down : Startup.libraries :=
  {| Startup.receiver_constructs := fun _ => true;
     Startup.app_constructs := fun _ => true;
     Startup.pool_constructs := fun _ => true;
     Startup.initdb_succeeds := false |}.

End Samples.

(* ================================================================== *)
(** * The modal views the commands open *)

Module Forms.
Import Js Fx Common Spec.
Local Open Scope string_scope.

(** [{ type: 'plain_text', text }]. *)
Definition plain_text (t : string) : jsval :=
  obj [("type", JStr (lit "plain_text")); ("text", JStr (lit t))].

(** The [view] argument of [client.views.open] in
    [app.command('/addtask')]: server.js lines 50-70, and the same
    literal in part_000 lines 62-82. *)
Definition add_task_modal : jsval :=
  obj [("type", JStr (lit "modal"));
       ("callback_id", JStr (lit "add_task_view"));
       ("title", plain_text "Add Task");
       ("submit", plain_text "Save");
       ("close", plain_text "Cancel");
       ("blocks",
        JArr [obj [("type", JStr (lit "input"));
                   ("block_id", JStr (lit "task_block"));
                   ("label", plain_text "Task");
                   ("element",
                    obj [("type", JStr (lit "plain_text_input"));
                         ("action_id", JStr (lit "task_input"));
                         ("multiline", JBool true)])];
              obj [("type", JStr (lit "input"));
                   ("block_id", JStr (lit "date_block"));
                   ("label", plain_text "Due date (YYYY-MM-DD)");
                   ("element",
                    obj [("type", JStr (lit "plain_text_input"));
                         ("action_id", JStr (lit "date_input"))])]])].

Definition user_select_block : jsval :=
  obj [("type", JStr (lit "input"));
       ("block_id", JStr (lit "user_select_block"));
       ("label", plain_text "Select user");
       ("element",
        obj [("type", JStr (lit "users_select"));
             ("action_id", JStr (lit "user_select"))])].

Definition task_select_element : jsval :=
  obj [("type", JStr (lit "external_select"));
       ("action_id", JStr (lit "task_select"));
       ("placeholder", plain_text "Search tasks (select a user first)")].

Definition custom_message_block : jsval :=
  obj [("type", JStr (lit "input"));
       ("block_id", JStr (lit "custom_message_block"));
       ("label", plain_text "Optional message");
       ("element",
        obj [("type", JStr (lit "plain_text_input"));
             ("action_id", JStr (lit "custom_message"));
             ("multiline", JBool true)]);
       ("optional", JBool true)].

Definition reminder_modal (task_select_block : jsval) : jsval :=
  obj [("type", JStr (lit "modal"));
       ("callback_id", JStr (lit "send_reminder_view"));
       ("title", plain_text "Send Reminder");
       ("submit", plain_text "Send");
       ("close", plain_text "Close");
       ("blocks", JArr [user_select_block; task_select_block;
                        custom_message_block])].

(** The [view] of [app.command('/reminduser')] in server.js, lines
    112-151: the task block says [optional: false]. *)
Definition server_js_reminder_modal : jsval :=
  reminder_modal
    (obj [("type", JStr (lit "input"));
          ("block_id", JStr (lit "task_select_block"));
          ("label", plain_text "Select task");
          ("element", task_select_element);
          ("optional", JBool false)]).

(** The [view] of [app.command('/reminduser')] in part_000, lines
    133-171. *)
Definition part_000_reminder_modal : jsval :=
  reminder_modal
    (obj [("type", JStr (lit "input"));
          ("block_id", JStr (lit "task_select_block"));
          ("label", plain_text "Select task");
          ("element", task_select_element)]).

(** The block id and the action id of an input block. *)
Definition block_key (block : jsval) : jsstring :=
  ToString (prop block (lit "block_id")).

Definition action_key (block : jsval) : jsstring :=
  ToString (prop (prop block (lit "element")) (lit "action_id")).

(** A form state that holds an entry [values[block_id][action_id]] for
    every input of the view. *)
Definition state_conforms (view vals : jsval) : Prop :=
  Forall (fun block =>
            nullish (prop (prop vals (block_key block)) (action_key block))
            = false)
         (own_values (prop view (lit "blocks"))).

(** [values[block][action][key]] of a form state. *)
Definition entry (vals : jsval) (block action key : string) : jsval :=
  prop (prop (prop vals (lit block)) (lit action)) (lit key).

(** [taskId] of server.js, line 218. *)
Definition server_js_task_id (vals : jsval) : jsval :=
  let so := entry vals "task_select_block" "task_select" "selected_option" in
  js_and so (prop so (lit "value")).

(** The state of the reminder form with a custom message. *)
Definition reminder_state (user option_value message : jsval) : jsval :=
  obj [("user_select_block",
        obj [("user_select",
              obj [("type", JStr (lit "users_select"));
                   ("selected_user", user)])]);
       ("task_select_block",
        obj [("task_select",
              obj [("type", JStr (lit "external_select"));
                   ("selected_option",
                    obj [("text", plain_text "label");
                         ("value", option_value)])])]);
       ("custom_message_block",
        obj [("custom_message",
              obj [("type", JStr (lit "plain_text_input"));
                   ("value", message)])])].

End Forms.

(* ================================================================== *)
(** * Facts about strings and decimal rendering *)

Module JsFacts.
Import Js.

Lemma str_eqb_eq (a b : jsstring) : str_eqb a b = true <-> a = b.
Proof.
  revert b; induction a as [|x a IH]; intros [|y b]; simpl;
    try (split; [discriminate | discriminate]); try tauto.
  rewrite andb_true_iff, N.eqb_eq, IH. split.
  - intros [-> ->]; reflexivity.
  - intros H; inversion H; auto.
Qed.

Lemma str_eqb_refl (a : jsstring) : str_eqb a a = true.
Proof. apply str_eqb_eq; reflexivity. Qed.


Lemma uint_chars_digits (u : Decimal.uint) :
  forallb is_digit (uint_chars u) = true.
Proof. induction u; simpl; auto. Qed.


Lemma to_int_digits_nonnil (z : Z) :
  match Z.to_int z with
  | Decimal.Pos u | Decimal.Neg u => u <> Decimal.Nil
  end.
Proof.
  destruct z; simpl; try discriminate; apply DecimalPos.Unsigned.to_uint_nonnil.
Qed.


(** [String(n)] is a decimal string. *)
Lemma decimal_is_decimal_string (z : Z) :
  is_decimal_string (decimal z) = true.
Proof.
  unfold decimal. pose proof (to_int_digits_nonnil z) as Hn.
  destruct (Z.to_int z) as [u|u].
  - destruct u; try congruence; simpl; apply uint_chars_digits.
  - simpl. rewrite uint_chars_digits, andb_true_r.
    destruct u; try congruence; reflexivity.
Qed.


End JsFacts.

(* ================================================================== *)
(** * Facts about the query on the tasks table *)

Module StoreFacts.
Import Js Fx Store.






















End StoreFacts.

(* ================================================================== *)
(** * The Form State Extractor of both variants *)

Module ExtractorFacts.
Import Js Fx Common Spec.

Lemma falsy_own_values (v : jsval) : truthy v = false -> own_values v = [].
Proof.
  destruct v as [| | b | n | s | es | fs]; simpl; try reflexivity;
    try discriminate.
  destruct s; [reflexivity | discriminate].
Qed.

Lemma falsy_prop (v : jsval) (k : jsstring) :
  truthy v = false -> prop v k = JUndefined.
Proof. destruct v; simpl; try reflexivity; discriminate. Qed.

(** The inner loop ends with a truthy selection or with [undefined]. *)
Lemma scan_fields_cases (vals : list jsval) :
  scan_fields vals = JUndefined \/ truthy (scan_fields vals) = true.
Proof.
  induction vals as [|val vals IH]; simpl; [left; reflexivity|].
  destruct (is_selected_user_picker val) eqn:E; [|exact IH].
  right. unfold is_selected_user_picker in E.
  apply andb_true_iff in E. tauto.
Qed.

Lemma scan_fields_none (vals : list jsval) :
  (forall val, In val vals -> is_selected_user_picker val = false) ->
  scan_fields vals = JUndefined.
Proof.
  induction vals as [|val vals IH]; simpl; intros H; [reflexivity|].
  rewrite (H val) by (left; reflexivity).
  apply IH. intros v Hv. apply H. right; exact Hv.
Qed.

Lemma server_js_scan_none (blocks : list jsval) :
  (forall block val, In block blocks -> In val (own_values block) ->
                     is_selected_user_picker val = false) ->
  ServerJs.scan_blocks blocks = JUndefined.
Proof.
  induction blocks as [|b blocks IH]; simpl; intros H; [reflexivity|].
  rewrite (scan_fields_none (own_values b)).
  - simpl. apply IH. intros block val Hb. apply H. right; exact Hb.
  - intros val Hv. apply (H b val); [left; reflexivity | exact Hv].
Qed.

Lemma server_js_scan_cases (blocks : list jsval) :
  ServerJs.scan_blocks blocks = JUndefined
  \/ truthy (ServerJs.scan_blocks blocks) = true.
Proof.
  induction blocks as [|b blocks IH]; simpl; [left; reflexivity|].
  destruct (truthy (scan_fields (own_values b))) eqn:E; [right; exact E|].
  exact IH.
Qed.

(** Where no block is [null], the loops of part_000 find what those of
    server.js find. *)
Lemma part_000_scan_present (blocks : list jsval) :
  (forall block, In block blocks -> nullish block = false) ->
  Part000.scan_blocks blocks = ret (ServerJs.scan_blocks blocks).
Proof.
  induction blocks as [|b blocks IH]; simpl; intros H; [reflexivity|].
  rewrite (H b) by (left; reflexivity).
  destruct (truthy (scan_fields (own_values b))); [reflexivity|].
  apply IH. intros block Hb. apply H. right; exact Hb.
Qed.

(** The loops of part_000 leave no trace, and end with the result of
    server.js or with a [TypeError]. *)
Lemma part_000_scan_cases (blocks : list jsval) :
  Part000.scan_blocks blocks = ret (ServerJs.scan_blocks blocks)
  \/ Part000.scan_blocks blocks = throw TypeError.
Proof.
  induction blocks as [|b blocks IH]; simpl; [left; reflexivity|].
  destruct (nullish b) eqn:Hn.
  - right; reflexivity.
  - destruct (truthy (scan_fields (own_values b))); [left; reflexivity|].
    exact IH.
Qed.

(** Lines 164-177 of server.js scan the blocks of the snapshot. *)
Lemma server_js_find (body : jsval) :
  nullish body = false ->
  ServerJs.find_selected_user body
  = ret (ServerJs.scan_blocks (own_values (snapshot_values body))).
Proof.
  intros Hb. unfold ServerJs.find_selected_user, get, snapshot_values.
  rewrite Hb. cbn [bind ret].
  set (view := prop body (lit "view")).
  destruct (truthy view) eqn:Hv; cbn [andb].
  - set (state := prop view (lit "state")).
    destruct (truthy state) eqn:Hs; cbn [app]; [reflexivity|].
    rewrite (falsy_prop _ _ Hs). reflexivity.
  - rewrite (falsy_prop _ _ Hv). reflexivity.
Qed.

(** Lines 184-198 of part_000 scan the same blocks. *)
Lemma part_000_find (body : jsval) :
  nullish body = false ->
  Part000.find_selected_user body
  = Part000.scan_blocks (own_values (snapshot_values body)).
Proof.
  intros Hb. unfold Part000.find_selected_user, get, snapshot_values.
  rewrite Hb. cbn [bind ret].
  set (view := prop body (lit "view")).
  destruct (truthy view) eqn:Hv; cbn [andb].
  - set (state := prop view (lit "state")).
    destruct (truthy state) eqn:Hs; cbn [andb].
    + set (values := prop state (lit "values")).
      destruct (truthy values) eqn:Hvals.
      * destruct (Part000.scan_blocks (own_values values)) as [t [a|e]] eqn:E;
          pose proof (part_000_scan_cases (own_values values)) as [H|H];
          rewrite H in E; inversion E; reflexivity.
      * rewrite (falsy_own_values _ Hvals). reflexivity.
    + rewrite (falsy_prop _ _ Hs). reflexivity.
  - rewrite (falsy_prop _ _ Hv). reflexivity.
Qed.

(** The extractor of server.js never fails on a snapshot. *)
Lemma server_js_find_total (body : jsval) :
  nullish body = false ->
  exists su, ServerJs.find_selected_user body = ret su
             /\ (su = JUndefined \/ truthy su = true).
Proof.
  intros Hb. eexists; split; [apply server_js_find; exact Hb|].
  apply server_js_scan_cases.
Qed.

(** Whenever the extractor of part_000 returns, it returns what the
    extractor of server.js returns. *)
Lemma part_000_find_agrees (body su : jsval) :
  Part000.find_selected_user body = ret su ->
  ServerJs.find_selected_user body = ret su.
Proof.
  intros H. destruct (nullish body) eqn:Hb.
  - unfold Part000.find_selected_user, get in H. rewrite Hb in H.
    discriminate H.
  - rewrite server_js_find by exact Hb.
    rewrite part_000_find in H by exact Hb.
    destruct (part_000_scan_cases (own_values (snapshot_values body)))
      as [E|E]; rewrite E in H; [exact H | discriminate].
Qed.

Lemma scan_fields_first (before : list jsval) (val : jsval)
  (after : list jsval) :
  (forall v, In v before -> is_selected_user_picker v = false) ->
  is_selected_user_picker val = true ->
  scan_fields (before ++ val :: after) = prop val (lit "selected_user").
Proof.
  intros Hb Hv. induction before as [|v before IH]; simpl.
  - rewrite Hv. reflexivity.
  - rewrite (Hb v) by (left; reflexivity).
    apply IH. intros v' Hv'. apply Hb. right; exact Hv'.
Qed.

Lemma server_js_scan_first (before : list jsval) (block : jsval)
  (after : list jsval) :
  (forall b val, In b before -> In val (own_values b) ->
                 is_selected_user_picker val = false) ->
  truthy (scan_fields (own_values block)) = true ->
  ServerJs.scan_blocks (before ++ block :: after)
  = scan_fields (own_values block).
Proof.
  intros Hb Ht. induction before as [|b before IH]; simpl.
  - rewrite Ht. reflexivity.
  - rewrite (scan_fields_none (own_values b)).
    + simpl. apply IH. intros b' val Hb'. apply Hb. right; exact Hb'.
    + intros val Hv. apply (Hb b val); [left; reflexivity | exact Hv].
Qed.

Lemma part_000_scan_first (before : list jsval) (block : jsval)
  (after : list jsval) :
  (forall b val, In b before -> In val (own_values b) ->
                 is_selected_user_picker val = false) ->
  truthy (scan_fields (own_values block)) = true ->
  (forall b, In b before -> nullish b = false) ->
  Part000.scan_blocks (before ++ block :: after)
  = ret (scan_fields (own_values block)).
Proof.
  intros Hb Ht Hp. induction before as [|b before IH]; simpl.
  - destruct (nullish block) eqn:Hn.
    + destruct block; try discriminate Hn; discriminate Ht.
    + rewrite Ht. reflexivity.
  - rewrite (Hp b) by (left; reflexivity).
    rewrite (scan_fields_none (own_values b)).
    + simpl. apply IH.
      * intros b' val Hb'. apply Hb. right; exact Hb'.
      * intros b' Hb'. apply Hp. right; exact Hb'.
    + intros val Hv. apply (Hb b val); [left; reflexivity | exact Hv].
Qed.

(** The extractor as the specification words it: both variants return
    the selection of the first field, in enumeration order, that is a
    user picker with a non-empty selection; part_000 needs the blocks
    before it not to be [null]. *)
Theorem first_selected_picker_is_found
  (body : jsval) (blocks_before : list jsval) (block : jsval)
  (blocks_after fields_before : list jsval) (val : jsval)
  (fields_after : list jsval) :
  nullish body = false ->
  own_values (snapshot_values body) = blocks_before ++ block :: blocks_after ->
  own_values block = fields_before ++ val :: fields_after ->
  (forall b v, In b blocks_before -> In v (own_values b) ->
               is_selected_user_picker v = false) ->
  (forall v, In v fields_before -> is_selected_user_picker v = false) ->
  is_selected_user_picker val = true ->
  ServerJs.find_selected_user body = ret (prop val (lit "selected_user"))
  /\ ((forall b, In b blocks_before -> nullish b = false) ->
      Part000.find_selected_user body = ret (prop val (lit "selected_user"))).
Proof.
  intros Hb Hbs Hfs Hnb Hnf Hv.
  assert (Hsel : scan_fields (own_values block)
                 = prop val (lit "selected_user")).
  { rewrite Hfs. apply scan_fields_first; assumption. }
  assert (Ht : truthy (scan_fields (own_values block)) = true).
  { rewrite Hsel. unfold is_selected_user_picker in Hv.
    apply andb_true_iff in Hv. tauto. }
  assert (Hs : ServerJs.scan_blocks (own_values (snapshot_values body))
               = prop val (lit "selected_user")).
  { rewrite Hbs, <- Hsel. apply server_js_scan_first; assumption. }
  split.
  - rewrite server_js_find by exact Hb. rewrite Hs. reflexivity.
  - intros Hp. rewrite part_000_find by exact Hb.
    rewrite Hbs, <- Hsel. apply part_000_scan_first; assumption.
Qed.

End ExtractorFacts.

(* ================================================================== *)
(** * The Dynamic Option Provider: [app.options('task_select')] *)

Module ProviderFacts.
Import Js Fx Common Spec Store.

(** [rows.map] of server.js leaves no trace: it returns one option per
    row, or a row without a [Date] makes it throw. *)
Lemma server_js_map_rows_cases (rs : list row) :
  (exists os, map_rows ServerJs.option_of_row rs = ret os
              /\ List.length os = List.length rs)
  \/ map_rows ServerJs.option_of_row rs = throw TypeError.
Proof.
  induction rs as [|r rs IH]; simpl.
  - left; exists []; split; reflexivity.
  - destruct r as [i t [d|s]]; cbn; [|right; reflexivity].
    destruct IH as [(os & -> & Hl) | ->]; [left|right; reflexivity].
    eexists; split; [reflexivity|]. simpl; congruence.
Qed.


Lemma server_js_values_dated (rs : list row) :
  Forall has_date rs ->
  exists os, map_rows ServerJs.option_of_row rs = ret os
             /\ map value os = map (fun r => decimal (id r)) rs.
Proof.
  induction 1 as [|r rs (d & Hd) _ (os & Hos & Hv)]; simpl.
  - exists []; split; reflexivity.
  - destruct r as [i t dv]; simpl in Hd; subst dv; cbn. rewrite Hos.
    eexists; split; [reflexivity|]. simpl; congruence.
Qed.

Lemma part_000_values (rs : list row) :
  map value (map Part000.option_of_row rs) = map (fun r => decimal (id r)) rs.
Proof. rewrite map_map. reflexivity. Qed.

(** ** What the handlers do once a user is selected *)

Lemma server_js_run (w : world) (body su : jsval) :
  ServerJs.find_selected_user body = ret su ->
  truthy su = true ->
  ServerJs.options_task_select w body =
  match select_open_tasks w su with
  | QueryError _ => (options_error_trace su, Done tt)
  | Rows rs =>
      match map_rows ServerJs.option_of_row rs with
      | (_, Done []) =>
          ([SelectOpenTasks su; Ack (Some [ServerJs.no_tasks_option])], Done tt)
      | (_, Done os) => ([SelectOpenTasks su; Ack (Some os)], Done tt)
      | (_, Threw _) => (options_error_trace su, Done tt)
      end
  end.
Proof.
  intros Hf Ht. unfold ServerJs.options_task_select. rewrite Hf.
  cbn [bind ret]. rewrite Ht. cbn [negb].
  destruct (select_open_tasks w su) as [rs|m]; [|reflexivity].
  unfold await_query. cbn [bind].
  destruct (server_js_map_rows_cases rs) as [(os & -> & _) | ->];
    [|reflexivity].
  destruct os; reflexivity.
Qed.

Lemma part_000_run (w : world) (body su : jsval) :
  Part000.find_selected_user body = ret su ->
  truthy su = true ->
  Part000.options_task_select w body =
  match select_open_tasks w su with
  | QueryError _ => (options_error_trace su, Done tt)
  | Rows [] =>
      ([SelectOpenTasks su; Ack (Some [Part000.no_tasks_option])], Done tt)
  | Rows rs =>
      ([SelectOpenTasks su; Ack (Some (map Part000.option_of_row rs))], Done tt)
  end.
Proof.
  intros Hf Ht. unfold Part000.options_task_select. rewrite Hf.
  cbn [bind ret]. rewrite Ht. cbn [negb].
  destruct (select_open_tasks w su) as [[|r rs]|m]; reflexivity.
Qed.

(** Without a selection both handlers answer with their placeholder. *)
Lemma server_js_no_selection (w : world) (body su : jsval) :
  ServerJs.find_selected_user body = ret su ->
  truthy su = false ->
  ServerJs.options_task_select w body
  = ([Ack (Some [ServerJs.no_user_option])], Done tt).
Proof.
  intros Hf Ht. unfold ServerJs.options_task_select. rewrite Hf.
  cbn [bind ret]. rewrite Ht. reflexivity.
Qed.

Lemma part_000_no_selection (w : world) (body su : jsval) :
  Part000.find_selected_user body = ret su ->
  truthy su = false ->
  Part000.options_task_select w body
  = ([Ack (Some [Part000.no_user_option])], Done tt).
Proof.
  intros Hf Ht. unfold Part000.options_task_select. rewrite Hf.
  cbn [bind ret]. rewrite Ht. reflexivity.
Qed.

(** When the extractor of part_000 throws, the [catch] answers. *)
Lemma part_000_extractor_throws (w : world) (body : jsval) :
  Part000.find_selected_user body = throw TypeError ->
  Part000.options_task_select w body
  = ([ConsoleError (lit "options handler error"); Ack (Some [err_option])],
     Done tt).
Proof.
  intros Hf. unfold Part000.options_task_select. rewrite Hf. reflexivity.
Qed.

End ProviderFacts.

(* ================================================================== *)
(** * Options for the open tasks of a user *)

Module OpenTaskOptions.
Import Js Fx Common Spec Store.








(** The end-to-end example of the specification: one open task "Ship
    report" due 2025-03-01 gives, in both variants, one option valued as
    its id and labelled with text and due date. *)
Lemma ship_report_option :
  let tbl := [{| t_id := 7; t_user_id := lit "U1";
                 t_task_text := lit "Ship report";
                 t_due_date := Samples.day 2025 3 1; t_completed := false |}] in
  let w := Samples.calm (query_open_tasks tbl (lit "U1")) in
  let o := {| text := lit "Ship report" ++ due_infix ++ lit "2025-03-01";
              value := lit "7" |} in
  ServerJs.options_task_select w (Samples.options_body Samples.picked_U1)
  = ([SelectOpenTasks Samples.U1; Ack (Some [o])], Done tt)
  /\ Part000.options_task_select w (Samples.options_body Samples.picked_U1)
     = ([SelectOpenTasks Samples.U1; Ack (Some [o])], Done tt).
Proof. split; reflexivity. Qed.

(** sixty open tasks of one user, with ids 1 to 60. *)
Lemma sixty_tasks_fifty_options :
  let tbl := map (fun i => {| t_id := Z.of_nat i; t_user_id := lit "U1";
                              t_task_text := Samples.letters i;
                              t_due_date := Samples.day 2025 3 1;
                              t_completed := false |}) (seq 1 60) in
  let w := Samples.calm (query_open_tasks tbl (lit "U1")) in
  List.length (filter (open_for (lit "U1")) tbl) = 60
  /\ (exists opts,
        ServerJs.options_task_select w (Samples.options_body Samples.picked_U1)
        = ([SelectOpenTasks Samples.U1; Ack (Some opts)], Done tt)
        /\ List.length opts = 50
        /\ map value opts = map (fun i => decimal (Z.of_nat i)) (seq 1 50))
  /\ (exists opts,
        Part000.options_task_select w (Samples.options_body Samples.picked_U1)
        = ([SelectOpenTasks Samples.U1; Ack (Some opts)], Done tt)
        /\ List.length opts = 50
        /\ map value opts = map (fun i => decimal (Z.of_nat i)) (seq 1 50)).
Proof.
  cbv zeta. split; [reflexivity|].
  split; eexists; (split; [vm_compute; reflexivity|]); split; reflexivity.
Qed.

End OpenTaskOptions.

(* ================================================================== *)
(** * The claims about the option handlers *)

Module ProviderClaims.
Import Js Fx Common Spec Store Samples.

(** C1, evaluated where part_000 departs from it: a user with one open
    task whose text has 60 characters.  part_000 acknowledges one option
    whose label has 77 characters, more than the 75 the claim allows; on
    the same request server.js cuts the label at 75. *)
Theorem C1_part_000_label_longer_than_75 :
  let tbl := [task_of_length 60] in
  let w := calm (query_open_tasks tbl (lit "U1")) in
  List.length (filter (open_for (lit "U1")) tbl) = 1
  /\ (exists o,
        Part000.options_task_select w (options_body picked_U1)
        = ([SelectOpenTasks U1; Ack (Some [o])], Done tt)
        /\ List.length (text o) = 77)
  /\ (exists o,
        ServerJs.options_task_select w (options_body picked_U1)
        = ([SelectOpenTasks U1; Ack (Some [o])], Done tt)
        /\ List.length (text o) = 75).
Proof.
  cbv zeta. split; [reflexivity|]. split.
  - eexists; split; [vm_compute; reflexivity | reflexivity].
  - eexists; split; [vm_compute; reflexivity | reflexivity].
Qed.

(** C2 as stated fails in part_000 on a text of 73 characters: the label
    is the whole text and the due suffix, and holds no ellipsis. *)
Lemma C2_counterexample :
  let r := {| id := 1; task_text := letters 73;
              due_date := DueDate (day 2025 3 1) |} in
  72 < List.length (task_text r)
  /\ text (Part000.option_of_row r)
     = task_text r ++ due_infix ++ lit "2025-03-01"
  /\ text (Part000.option_of_row r)
     <> slice0 72 (task_text r) ++ ellipsis ++ due_infix ++ lit "2025-03-01".
Proof.
  cbv zeta. split; [vm_compute; lia|]. split; [reflexivity|].
  vm_compute. discriminate.
Qed.

(** server.js never adds an ellipsis: a text of 80 characters leaves
    its first 75 as the whole label. *)
Lemma server_js_cuts_without_ellipsis :
  let r := {| id := 1; task_text := letters 80;
              due_date := DueDate (day 2025 3 1) |} in
  ServerJs.option_of_row r
  = ret {| text := letters 75; value := lit "1" |}.
Proof. reflexivity. Qed.

Lemma slice0_app_short (n : nat) (a b : jsstring) :
  List.length a <= n -> slice0 n (a ++ b) = a ++ slice0 (n - List.length a) b.
Proof.
  intros H. unfold slice0. rewrite firstn_app.
  rewrite (firstn_all2 a) by exact H. reflexivity.
Qed.

(** C2, amended: in part_000 the threshold is 75 characters, not 72.  A
    text longer than 75 shows its first 72 characters, the ellipsis and
    then the due suffix; a text of at most 75 (so also of at most 72) is
    shown whole, followed at once by the due suffix.  server.js has no
    ellipsis: its label is the first 75 characters of text and suffix, so a
    text of at most 75 characters is shown whole as well. *)
Theorem C2_truncation_threshold (r : row) :
  (75 < List.length (task_text r) ->
   text (Part000.option_of_row r)
   = slice0 72 (task_text r) ++ ellipsis ++ due_infix
       ++ Part000.due_text (due_date r))
  /\ (List.length (task_text r) <= 75 ->
      text (Part000.option_of_row r)
      = task_text r ++ due_infix ++ Part000.due_text (due_date r))
  /\ (forall d,
        List.length (task_text r) <= 75 ->
        text (ServerJs.dated_option r d)
        = task_text r
            ++ slice0 (75 - List.length (task_text r)) (due_infix ++ iso10 d)).
Proof.
  split; [|split].
  - intros H. unfold Part000.option_of_row, Part000.label_of_text. cbn [text].
    apply Nat.ltb_lt in H. rewrite H. rewrite <- app_assoc. reflexivity.
  - intros H. unfold Part000.option_of_row, Part000.label_of_text. cbn [text].
    apply Nat.ltb_ge in H. rewrite H. reflexivity.
  - intros d H. unfold ServerJs.dated_option. cbn [text].
    apply slice0_app_short; exact H.
Qed.

Lemma C2_truncation_threshold_witness :
  let long := {| id := 1; task_text := letters 80;
                 due_date := DueDate (day 2025 3 1) |} in
  let short := {| id := 2; task_text := letters 72;
                  due_date := DueDate (day 2025 3 1) |} in
  75 < List.length (task_text long)
  /\ text (Part000.option_of_row long)
     = letters 72 ++ ellipsis ++ due_infix ++ lit "2025-03-01"
  /\ List.length (task_text short) <= 75
  /\ text (Part000.option_of_row short)
     = letters 72 ++ due_infix ++ lit "2025-03-01".
Proof.
  cbv zeta.
  split; [vm_compute; lia|].
  split; [apply (C2_truncation_threshold
                   {| id := 1; task_text := letters 80;
                      due_date := DueDate (day 2025 3 1) |}); vm_compute; lia|].
  split; [vm_compute; lia|].
  apply (C2_truncation_threshold
           {| id := 2; task_text := letters 72;
              due_date := DueDate (day 2025 3 1) |}); vm_compute; lia.
Defined.

(** C5, evaluated where part_000 departs from it: the snapshot
    [{ "b": null }] holds no selected user picker, yet part_000 throws
    inside its own scan and acknowledges the [err] placeholder; server.js
    acknowledges the [no_user] placeholder. *)
Theorem C5_part_000_null_block (w : world) :
  no_picker_selected (options_body null_block)
  /\ Part000.options_task_select w (options_body null_block)
     = ([ConsoleError (lit "options handler error"); Ack (Some [err_option])],
        Done tt)
  /\ ServerJs.options_task_select w (options_body null_block)
     = ([Ack (Some [ServerJs.no_user_option])], Done tt).
Proof.
  split; [|split; reflexivity].
  intros block val Hb Hv. vm_compute in Hb.
  destruct Hb as [<- | []]. destruct Hv.
Qed.

(** server.js meets C5 on every snapshot. *)
Theorem server_js_placeholder_without_selection (w : world) (body : jsval) :
  nullish body = false ->
  no_picker_selected body ->
  ServerJs.options_task_select w body
  = ([Ack (Some [ServerJs.no_user_option])], Done tt)
  /\ value ServerJs.no_user_option = lit "no_user".
Proof.
  intros Hb Hn. split; [|reflexivity].
  apply (ProviderFacts.server_js_no_selection w body JUndefined);
    [|reflexivity].
  rewrite ExtractorFacts.server_js_find by exact Hb.
  rewrite ExtractorFacts.server_js_scan_none; [reflexivity | exact Hn].
Qed.

(** part_000 meets C5 on the snapshots none of whose blocks is [null]. *)
Theorem part_000_placeholder_without_selection (w : world) (body : jsval) :
  nullish body = false ->
  blocks_present body ->
  no_picker_selected body ->
  Part000.options_task_select w body
  = ([Ack (Some [Part000.no_user_option])], Done tt)
  /\ value Part000.no_user_option = lit "no_user".
Proof.
  intros Hb Hp Hn. split; [|reflexivity].
  apply (ProviderFacts.part_000_no_selection w body JUndefined);
    [|reflexivity].
  rewrite ExtractorFacts.part_000_find by exact Hb.
  rewrite ExtractorFacts.part_000_scan_present by exact Hp.
  rewrite ExtractorFacts.server_js_scan_none; [reflexivity | exact Hn].
Qed.

(** C6: when a user is selected and the query for that user's open tasks
    returns no row, each variant queries once and acknowledges exactly
    one option, its "no tasks" placeholder with value [no_tasks]. *)
Theorem C6_no_tasks_placeholder (w : world) (body su : jsval) :
  truthy su = true ->
  select_open_tasks w su = Rows [] ->
  (ServerJs.find_selected_user body = ret su ->
   ServerJs.options_task_select w body
   = ([SelectOpenTasks su; Ack (Some [ServerJs.no_tasks_option])], Done tt))
  /\ (Part000.find_selected_user body = ret su ->
      Part000.options_task_select w body
      = ([SelectOpenTasks su; Ack (Some [Part000.no_tasks_option])], Done tt))
  /\ value ServerJs.no_tasks_option = lit "no_tasks"
  /\ value Part000.no_tasks_option = lit "no_tasks".
Proof.
  intros Ht Hq. split; [|split; [|split; reflexivity]]; intros Hf.
  - rewrite (ProviderFacts.server_js_run w body su Hf Ht), Hq. reflexivity.
  - rewrite (ProviderFacts.part_000_run w body su Hf Ht), Hq. reflexivity.
Qed.

Lemma C6_no_tasks_placeholder_witness :
  truthy U1 = true
  /\ select_open_tasks (calm []) U1 = Rows []
  /\ ServerJs.find_selected_user (options_body picked_U1) = ret U1
  /\ Part000.find_selected_user (options_body picked_U1) = ret U1
  /\ ServerJs.options_task_select (calm []) (options_body picked_U1)
     = ([SelectOpenTasks U1; Ack (Some [ServerJs.no_tasks_option])], Done tt)
  /\ Part000.options_task_select (calm []) (options_body picked_U1)
     = ([SelectOpenTasks U1; Ack (Some [Part000.no_tasks_option])], Done tt).
Proof.
  destruct (C6_no_tasks_placeholder (calm []) (options_body picked_U1) U1
              eq_refl eq_refl) as (Hs & Hp & _).
  do 4 (split; [reflexivity|]).
  split; [apply Hs; reflexivity | apply Hp; reflexivity].
Defined.

(** C7: when the query raises an error, each variant logs it and then
    acknowledges exactly one option, the "error loading" placeholder with
    value [err]; the handler itself ends normally. *)
Theorem C7_error_placeholder (w : world) (body su : jsval) (m : jsstring) :
  truthy su = true ->
  select_open_tasks w su = QueryError m ->
  (ServerJs.find_selected_user body = ret su ->
   ServerJs.options_task_select w body
   = ([SelectOpenTasks su; ConsoleError (lit "options handler error");
       Ack (Some [err_option])], Done tt))
  /\ (Part000.find_selected_user body = ret su ->
      Part000.options_task_select w body
      = ([SelectOpenTasks su; ConsoleError (lit "options handler error");
          Ack (Some [err_option])], Done tt))
  /\ value err_option = lit "err".
Proof.
  intros Ht Hq. split; [|split; [|reflexivity]]; intros Hf.
  - rewrite (ProviderFacts.server_js_run w body su Hf Ht), Hq. reflexivity.
  - rewrite (ProviderFacts.part_000_run w body su Hf Ht), Hq. reflexivity.
Qed.

Lemma C7_error_placeholder_witness :
  truthy U1 = true
  /\ select_open_tasks store_down U1 = QueryError (lit "connection refused")
  /\ ServerJs.find_selected_user (options_body picked_U1) = ret U1
  /\ Part000.find_selected_user (options_body picked_U1) = ret U1
  /\ ServerJs.options_task_select store_down (options_body picked_U1)
     = (options_error_trace U1, Done tt)
  /\ Part000.options_task_select store_down (options_body picked_U1)
     = (options_error_trace U1, Done tt).
Proof.
  destruct (C7_error_placeholder store_down (options_body picked_U1) U1
              (lit "connection refused") eq_refl eq_refl) as (Hs & Hp & _).
  do 4 (split; [reflexivity|]).
  split; [apply Hs; reflexivity | apply Hp; reflexivity].
Defined.

(** C10 as stated fails on the simplest request, a form without a
    selection: the two handlers acknowledge placeholders with different
    labels. *)
Lemma C10_counterexample :
  let body := options_body (obj []) in
  acked_options (trace (ServerJs.options_task_select (calm []) body))
  = [[{| text := lit "Pick a user first"; value := lit "no_user" |}]]
  /\ acked_options (trace (Part000.options_task_select (calm []) body))
     = [[{| text := lit "Please select a user first"; value := lit "no_user" |}]]
  /\ acked_options (trace (ServerJs.options_task_select (calm []) body))
     <> acked_options (trace (Part000.options_task_select (calm []) body)).
Proof.
  cbv zeta. split; [reflexivity|]. split; [reflexivity|].
  vm_compute. discriminate.
Qed.

(** C10, amended: whenever the extractor of part_000 returns and the rows
    of the store carry dates, both handlers end normally and acknowledge
    option lists with the same values in the same order, hence of the
    same length; the labels are not claimed to agree. *)
Theorem C10_same_values (w : world) (body su : jsval) :
  Part000.find_selected_user body = ret su ->
  (forall rs, select_open_tasks w su = Rows rs -> Forall has_date rs) ->
  map (map value) (acked_options (trace (ServerJs.options_task_select w body)))
  = map (map value) (acked_options (trace (Part000.options_task_select w body)))
  /\ List.length (acked_options (trace (ServerJs.options_task_select w body))) = 1
  /\ result (ServerJs.options_task_select w body) = Done tt
  /\ result (Part000.options_task_select w body) = Done tt.
Proof.
  intros Hp Hd.
  pose proof (ExtractorFacts.part_000_find_agrees body su Hp) as Hs.
  destruct (truthy su) eqn:Ht.
  - rewrite (ProviderFacts.server_js_run w body su Hs Ht).
    rewrite (ProviderFacts.part_000_run w body su Hp Ht).
    destruct (select_open_tasks w su) as [rs|m] eqn:Hq;
      [|repeat split; reflexivity].
    destruct (ProviderFacts.server_js_values_dated rs (Hd rs eq_refl))
      as (os & -> & Hv).
    destruct rs as [|r rs]; destruct os as [|o os]; try discriminate;
      [repeat split; reflexivity|].
    split; [|repeat split; reflexivity].
    cbn [ret trace fst acked_options]. simpl in Hv |- *.
    rewrite Hv, ProviderFacts.part_000_values. reflexivity.
  - rewrite (ProviderFacts.server_js_no_selection w body su Hs Ht).
    rewrite (ProviderFacts.part_000_no_selection w body su Hp Ht).
    repeat split; reflexivity.
Qed.

Lemma C10_same_values_witness :
  Part000.find_selected_user (options_body picked_U1) = ret U1
  /\ map (map value)
       (acked_options
          (trace (ServerJs.options_task_select (calm [ship_report])
                                               (options_body picked_U1))))
     = [[lit "7"]]
  /\ map (map value)
       (acked_options
          (trace (Part000.options_task_select (calm [ship_report])
                                              (options_body picked_U1))))
     = [[lit "7"]].
Proof.
  assert (Hd : forall rs, select_open_tasks (calm [ship_report]) U1 = Rows rs ->
                          Forall has_date rs).
  { intros rs H. injection H as <-. repeat constructor.
    exists (day 2025 3 1). reflexivity. }
  destruct (C10_same_values (calm [ship_report]) (options_body picked_U1) U1
              eq_refl Hd) as (Hv & _).
  split; [reflexivity|].
  split; [rewrite Hv|]; reflexivity.
Defined.

End ProviderClaims.

(* ================================================================== *)
(** * Traces without acknowledgment, and the date pattern *)

Module HandlerFacts.
Import Js Fx Common Spec.

(** The regular expression accepts exactly: four digits, dash, two
    digits, dash, two digits. *)
Lemma date_pattern_spec (s : jsstring) :
  matches_exactly date_pattern s = true <-> lexical_date s.
Proof.
  unfold lexical_date. split.
  - intros H. unfold date_pattern in H. cbn [repeat app] in H.
    do 10 (destruct s as [|? s]; [discriminate|];
           cbn [matches_exactly] in H;
           apply andb_true_iff in H; destruct H as [? H]).
    destruct s; [|discriminate].
    cbn [atom_matches] in *.
    repeat match goal with
           | E : N.eqb _ minus_sign = true |- _ => apply N.eqb_eq in E; subst
           end.
    do 8 eexists. split; [reflexivity|]. repeat constructor; assumption.
  - intros (y1 & y2 & y3 & y4 & m1 & m2 & d1 & d2 & -> & HF).
    repeat match goal with
           | F : Forall _ (_ :: _) |- _ => inversion F; clear F; subst
           end.
    unfold date_pattern. cbn [repeat app matches_exactly atom_matches].
    repeat match goal with
           | E : is_digit _ = true |- _ => rewrite E; clear E
           end.
    reflexivity.
Qed.

Lemma date_regex_test_spec (v : jsval) :
  date_regex_test v = true <-> lexical_date (ToString v).
Proof. apply date_pattern_spec. Qed.

Lemma ack_count_app (s t : list event) :
  ack_count (s ++ t) = ack_count s + ack_count t.
Proof. unfold ack_count. rewrite filter_app, length_app. reflexivity. Qed.

Lemma trace_bind {A B} (m : M A) (f : A -> M B) :
  trace (bind m f)
  = match result m with
    | Done a => trace m ++ trace (f a)
    | Threw _ => trace m
    end.
Proof.
  destruct m as [t [a|e]]; simpl; [|reflexivity].
  destruct (f a); reflexivity.
Qed.

Lemma trace_try_catch {A} (m : M A) (h : exn -> M A) :
  trace (try_catch m h)
  = match result m with
    | Done _ => trace m
    | Threw e => trace m ++ trace (h e)
    end.
Proof.
  destruct m as [t [a|e]]; simpl; [reflexivity|].
  destruct (h e); reflexivity.
Qed.

Lemma quiet_bind {A B} (m : M A) (f : A -> M B) :
  quiet m -> (forall a, quiet (f a)) -> quiet (bind m f).
Proof.
  unfold quiet. intros Hm Hf. rewrite trace_bind.
  destruct (result m); [|exact Hm].
  rewrite ack_count_app, Hm, Hf. reflexivity.
Qed.

Lemma quiet_try_catch {A} (m : M A) (h : exn -> M A) :
  quiet m -> (forall e, quiet (h e)) -> quiet (try_catch m h).
Proof.
  unfold quiet. intros Hm Hh. rewrite trace_try_catch.
  destruct (result m); [exact Hm|].
  rewrite ack_count_app, Hm, Hh. reflexivity.
Qed.

Lemma quiet_ret {A} (a : A) : quiet (ret a).
Proof. reflexivity. Qed.

Lemma quiet_throw {A} (e : exn) : quiet (@throw A e).
Proof. reflexivity. Qed.

Lemma quiet_get (v : jsval) (k : string) : quiet (get v k).
Proof. unfold get. destruct (nullish v); reflexivity. Qed.

Lemma quiet_await (ev : event) (r : option jsstring) :
  is_ack ev = false -> quiet (await ev r).
Proof. intros H. unfold quiet, ack_count. simpl. rewrite H. reflexivity. Qed.

Lemma quiet_await_query (ev : event) (r : query_result) :
  is_ack ev = false -> quiet (await_query ev r).
Proof. intros H. unfold quiet, ack_count. simpl. rewrite H. reflexivity. Qed.

Lemma quiet_emit (ev : event) : is_ack ev = false -> quiet (emit ev).
Proof. intros H. unfold quiet, ack_count. simpl. rewrite H. reflexivity. Qed.

Lemma quiet_first_row (rs : list row) : quiet (first_row rs).
Proof. destruct rs; reflexivity. Qed.

(** A handler that acknowledges first and then stays quiet acknowledged
    exactly once, before anything else. *)
Lemma acked_first_once_intro (m : M unit) :
  quiet m -> acked_first_once (trace (bind (emit (Ack None)) (fun _ => m))).
Proof.
  intros Hq. exists (trace m). split; [|exact Hq].
  destruct m as [t r]; reflexivity.
Qed.

End HandlerFacts.

(* ================================================================== *)
(** * The claims about the submissions *)

Module SubmissionClaims.
Import Js Fx Common Spec Samples HandlerFacts.
Local Open Scope fx_scope.

Lemma bind_ret_l {A B} (a : A) (f : A -> M B) : bind (ret a) f = f a.
Proof. unfold bind, ret. destruct (f a); reflexivity. Qed.

Lemma part_000_add_task_run (w : world) (view body user vals : jsval) :
  envelope view body user vals ->
  Part000.add_task_view w view body
  = (emit (Ack None) ;;;
     let taskText := Part000.task_text_of vals in
     let dueDateRaw := Part000.due_date_of vals in
     if negb (Part000.task_submission_ok taskText dueDateRaw) then
       Part000.try_ephemeral w user Part000.invalid_task_notice
                             "error sending ephemeral"
     else
       let params := [user; taskText; dueDateRaw; user] in
       let msg := saved_text taskText dueDateRaw in
       try_catch
         (await (InsertTask params) (insert_task w params) ;;;
          await (PostMessage user msg) (chat_postMessage w user msg))
         (fun _ =>
            emit (ConsoleError (lit "DB insert or DM error")) ;;;
            Part000.try_ephemeral w user
              (lit "Failed to save task (server error).")
              "ephemeral send failed")).
Proof.
  intros (u & st & H1 & H2 & H3 & H4).
  unfold Part000.add_task_view. cbn [bind emit].
  rewrite H1, bind_ret_l, H2, bind_ret_l, H3, bind_ret_l, H4, bind_ret_l.
  reflexivity.
Qed.

Lemma task_submission_ok_valid (vals : jsval) :
  Part000.task_submission_ok (Part000.task_text_of vals)
                             (Part000.due_date_of vals) = true
  <-> task_submission_valid vals.
Proof.
  unfold Part000.task_submission_ok, task_submission_valid.
  rewrite andb_true_iff, date_regex_test_spec.
  unfold Part000.task_text_of, js_or.
  destruct (truthy (Part000.field vals "task_block" "task_input" "value"))
    eqn:E.
  - rewrite E. tauto.
  - simpl. split; intros [H _]; discriminate.
Qed.

(** C4 as stated fails in part_000 on a task text of three spaces: it is
    empty after trimming, yet the row is inserted and the confirmation
    sent. *)
Lemma C4_counterexample :
  let spaces := lit "   " in
  let vals := task_form (JStr spaces) (JStr (lit "2024-01-01")) in
  trim spaces = []
  /\ Part000.add_task_view (calm []) (view_of vals) (body_of CEO)
     = ([Ack None;
         InsertTask [CEO; JStr spaces; JStr (lit "2024-01-01"); CEO];
         PostMessage CEO (saved_text (JStr spaces) (JStr (lit "2024-01-01")))],
        Done tt).
Proof. split; reflexivity. Qed.

(** C4, amended: part_000 accepts a task-creation submission if and only
    if the task field holds a non-empty value, nothing being trimmed, and
    the date field matches four digits, dash, two digits, dash, two
    digits.  An accepted submission is acknowledged and then inserted;
    a refused one touches the store not at all, is answered with the
    private notice, and the handler ends normally. *)
Theorem C4_task_submission (w : world) (view body user vals : jsval) :
  envelope view body user vals ->
  let run := Part000.add_task_view w view body in
  (task_submission_valid vals ->
   exists rest,
     trace run
     = Ack None
       :: InsertTask [user; Part000.task_text_of vals;
                      Part000.due_date_of vals; user]
       :: rest)
  /\ (~ task_submission_valid vals ->
      existsb is_store_access (trace run) = false
      /\ (exists rest,
            trace run
            = Ack None
              :: PostEphemeral user user Part000.invalid_task_notice :: rest)
      /\ result run = Done tt).
Proof.
  intros He run. subst run. rewrite (part_000_add_task_run w view body user vals He). cbv zeta.
  split; intros Hv.
  - apply task_submission_ok_valid in Hv. rewrite Hv. cbn [negb].
    destruct (insert_task w _) as [e|];
      [|destruct (chat_postMessage w _ _) as [e|]];
      cbn; try (destruct (chat_postEphemeral w _ _ _)); cbn;
      eexists; reflexivity.
  - rewrite <- task_submission_ok_valid in Hv.
    apply not_true_is_false in Hv. rewrite Hv. cbn [negb].
    unfold Part000.try_ephemeral.
    destruct (chat_postEphemeral w _ _ _) as [e|]; cbn;
      (split; [reflexivity|]; split; [eexists; reflexivity | reflexivity]).
Qed.

Lemma C4_task_submission_witness :
  let vals := task_form (JStr (lit "Ship report")) (JStr (lit "2024-13-40")) in
  envelope (view_of vals) (body_of CEO) CEO vals
  /\ task_submission_valid vals
  /\ exists rest,
       trace (Part000.add_task_view (calm []) (view_of vals) (body_of CEO))
       = Ack None
         :: InsertTask [CEO; JStr (lit "Ship report");
                        JStr (lit "2024-13-40"); CEO]
         :: rest.
Proof.
  cbv zeta.
  assert (He : envelope
                 (view_of (task_form (JStr (lit "Ship report"))
                                     (JStr (lit "2024-13-40"))))
                 (body_of CEO) CEO
                 (task_form (JStr (lit "Ship report"))
                            (JStr (lit "2024-13-40")))).
  { do 2 eexists. repeat split; reflexivity. }
  assert (Hv : task_submission_valid
                 (task_form (JStr (lit "Ship report"))
                            (JStr (lit "2024-13-40")))).
  { split; [reflexivity|]. apply date_pattern_spec. reflexivity. }
  split; [exact He|]. split; [exact Hv|].
  exact (proj1 (C4_task_submission (calm []) _ _ _ _ He) Hv).
Defined.

(** server.js validates nothing: an empty task field and an empty
    date field are inserted as they come, and the confirmation is sent. *)
Lemma server_js_add_task_unvalidated :
  let vals := task_form JNull JNull in
  ServerJs.add_task_view (calm []) (view_of vals) (body_of CEO)
  = ([Ack None; InsertTask [CEO; JNull; JNull; CEO; JNull];
      PostMessage CEO (saved_text JNull JNull)], Done tt).
Proof. reflexivity. Qed.

End SubmissionClaims.

(* ================================================================== *)
(** * The claims about the reminder submission *)

Module ReminderClaims.
Import Js Fx Common Spec Samples HandlerFacts.
Local Open Scope fx_scope.

Lemma part_000_reminder_run (w : world) (view body ceo vals : jsval) :
  envelope view body ceo vals ->
  Part000.send_reminder_view w view body
  = (emit (Ack None) ;;;
     let userSelected := Part000.user_selected_of vals in
     let taskId := Part000.task_id_of vals in
     let customMsg := Part000.custom_message_of vals in
     if negb (Part000.reminder_submission_ok userSelected taskId) then
       Part000.try_ephemeral w ceo Part000.missing_selection_notice
                             "ephemeral send failed"
     else
       try_catch
         (rows <- await_query (SelectTask taskId) (select_task w taskId) ;;
          if Nat.eqb (List.length rows) 0 then
            let msg := lit "Task not found (may have been deleted)." in
            await (PostEphemeral ceo ceo msg) (chat_postEphemeral w ceo ceo msg)
          else
            task <- first_row rows ;;
            let due := Part000.due_text (due_date task) in
            let msg := reminder_text (task_text task) due customMsg in
            await (PostMessage userSelected msg)
                  (chat_postMessage w userSelected msg) ;;;
            let conf := sent_text userSelected taskId in
            await (PostEphemeral ceo ceo conf)
                  (chat_postEphemeral w ceo ceo conf))
         (fun _ =>
            emit (ConsoleError (lit "send reminder error")) ;;;
            Part000.try_ephemeral w ceo
              (lit "Failed to send reminder (server error).")
              "ephemeral error")).
Proof.
  intros (u & st & H1 & H2 & H3 & H4).
  unfold Part000.send_reminder_view. cbn [bind emit].
  rewrite H1, SubmissionClaims.bind_ret_l, H2, SubmissionClaims.bind_ret_l,
    H3, SubmissionClaims.bind_ret_l, H4, SubmissionClaims.bind_ret_l.
  reflexivity.
Qed.

(** C3 as stated fails on a sentinel: with a user selected and the option
    value [no_tasks], part_000 does not reject the submission but looks
    the value up in the store; when the store refuses it the invoker is
    told of a server error, not of a missing field. *)
Lemma C3_counterexample :
  let vals := reminder_form U1 (JStr (lit "no_tasks")) in
  let run := Part000.send_reminder_view store_down (view_of vals) (body_of CEO) in
  is_sentinel (Part000.task_id_of vals) = true
  /\ trace run
     = [Ack None; SelectTask (JStr (lit "no_tasks"));
        ConsoleError (lit "send reminder error");
        PostEphemeral CEO CEO (lit "Failed to send reminder (server error).")]
  /\ ~ rejected_naming_fields CEO (trace run).
Proof.
  cbv zeta. split; [reflexivity|]. split; [reflexivity|].
  intros [_ Hin]. vm_compute in Hin.
  repeat (destruct Hin as [Hin|Hin]; [discriminate Hin|]). exact Hin.
Qed.

(** Nothing in part_000 tells a sentinel from an id: were the store to
    return a row for it, the reminder would go out. *)
Lemma part_000_sentinel_is_looked_up :
  let vals := reminder_form U1 (JStr (lit "no_tasks")) in
  exists msg conf,
    Part000.send_reminder_view (calm [ship_report]) (view_of vals) (body_of CEO)
    = ([Ack None; SelectTask (JStr (lit "no_tasks")); PostMessage U1 msg;
        PostEphemeral CEO CEO conf], Done tt).
Proof. do 2 eexists. reflexivity. Qed.

(** server.js validates nothing: without a selected user the reminder is
    posted to the channel [null]. *)
Lemma server_js_reminder_unvalidated :
  let vals := reminder_form JNull (JStr (lit "7")) in
  exists msg conf,
    ServerJs.send_reminder_view (calm [ship_report]) (view_of vals) (body_of CEO)
    = ([Ack None; SelectTask (JStr (lit "7")); PostMessage JNull msg;
        PostEphemeral CEO CEO conf], Done tt).
Proof. do 2 eexists. reflexivity. Qed.

(** C3, amended: part_000 rejects a reminder submission whose user
    selection or task selection is absent or empty: the store is not
    touched, no reminder goes out, the invoker is sent the private notice
    that names both fields, and the handler ends normally.  The sentinel
    values are not checked: with both selections present the option value
    is looked up in the store whatever it is, and no reminder goes out
    when that lookup fails or returns no row. *)
Theorem C3_missing_selection_rejected
  (w : world) (view body ceo vals : jsval) :
  envelope view body ceo vals ->
  let run := Part000.send_reminder_view w view body in
  let user := Part000.user_selected_of vals in
  let taskId := Part000.task_id_of vals in
  (truthy user = false \/ truthy taskId = false ->
   existsb is_store_access (trace run) = false
   /\ existsb is_post_message (trace run) = false
   /\ (exists rest,
         trace run
         = Ack None
           :: PostEphemeral ceo ceo Part000.missing_selection_notice :: rest)
   /\ result run = Done tt)
  /\ (truthy user = true -> truthy taskId = true ->
      (exists rest, trace run = Ack None :: SelectTask taskId :: rest)
      /\ (select_task w taskId = Rows []
          \/ (exists m, select_task w taskId = QueryError m) ->
          existsb is_post_message (trace run) = false)).
Proof.
  intros He run user taskId. subst run user taskId.
  rewrite (part_000_reminder_run w view body ceo vals He). cbv zeta.
  unfold Part000.reminder_submission_ok, Part000.try_ephemeral. split.
  - intros Hm.
    assert (Hok : truthy (Part000.user_selected_of vals)
                  && truthy (Part000.task_id_of vals) = false).
    { destruct Hm as [-> | ->]; [reflexivity | apply andb_false_r]. }
    rewrite Hok. cbn [negb].
    destruct (chat_postEphemeral w _ _ _) as [e|]; cbn;
      (split; [reflexivity|]; split; [reflexivity|];
       split; [eexists; reflexivity | reflexivity]).
  - intros Hu Ht. rewrite Hu, Ht. cbn [andb negb]. split.
    + destruct (select_task w _) as [[|r rs]|m]; cbn;
        repeat match goal with
          | |- context [chat_postEphemeral w ?a ?b ?c] =>
              destruct (chat_postEphemeral w a b c); cbn
          | |- context [chat_postMessage w ?a ?b] =>
              destruct (chat_postMessage w a b); cbn
          end; eexists; reflexivity.
    + intros [Hq | (m & Hq)]; rewrite Hq; cbn;
        repeat match goal with
          | |- context [chat_postEphemeral w ?a ?b ?c] =>
              destruct (chat_postEphemeral w a b c); cbn
          end; reflexivity.
Qed.

Lemma C3_missing_selection_rejected_witness :
  let vals := reminder_form U1 JNull in
  envelope (view_of vals) (body_of CEO) CEO vals
  /\ truthy (Part000.task_id_of vals) = false
  /\ existsb is_post_message
       (trace (Part000.send_reminder_view (calm [ship_report])
                                          (view_of vals) (body_of CEO)))
     = false.
Proof.
  cbv zeta.
  assert (He : envelope (view_of (reminder_form U1 JNull)) (body_of CEO) CEO
                        (reminder_form U1 JNull)).
  { do 2 eexists. repeat split; reflexivity. }
  split; [exact He|]. split; [reflexivity|].
  exact (proj1 (proj2 (proj1 (C3_missing_selection_rejected
                                (calm [ship_report]) _ _ _ _ He)
                             (or_intror eq_refl)))).
Defined.

End ReminderClaims.

(* ================================================================== *)
(** * The claim about acknowledgments *)

Module AcknowledgmentClaims.
Import Js Fx Common Spec Samples HandlerFacts.
Local Open Scope fx_scope.

Ltac quiet_step :=
  match goal with
  | |- quiet (bind _ _) => apply quiet_bind; [|intros]
  | |- quiet (try_catch _ _) => apply quiet_try_catch; [|intros]
  | |- quiet (get _ _) => apply quiet_get
  | |- quiet (ret _) => apply quiet_ret
  | |- quiet (throw _) => apply quiet_throw
  | |- quiet (await _ _) => apply quiet_await; reflexivity
  | |- quiet (await_query _ _) => apply quiet_await_query; reflexivity
  | |- quiet (emit _) => apply quiet_emit; reflexivity
  | |- quiet (first_row _) => apply quiet_first_row
  | |- quiet (Part000.try_ephemeral _ _ _ _) => unfold Part000.try_ephemeral
  | |- quiet (if ?b then _ else _) => destruct b
  | |- quiet (match ?x with _ => _ end) => destruct x
  end.

Ltac quiet_handler := apply acked_first_once_intro; cbv zeta; repeat quiet_step.

Lemma server_js_commands_ack_first (w : world) (body : jsval) :
  acked_first_once (trace (ServerJs.addtask_command w body))
  /\ acked_first_once (trace (ServerJs.reminduser_command w body)).
Proof.
  split; unfold ServerJs.addtask_command, ServerJs.reminduser_command,
           ServerJs.open_modal_command; quiet_handler.
Qed.

Lemma part_000_commands_ack_first (w : world) (body : jsval) :
  acked_first_once (trace (Part000.addtask_command w body))
  /\ acked_first_once (trace (Part000.reminduser_command w body)).
Proof.
  split; unfold Part000.addtask_command, Part000.reminduser_command,
           Part000.open_modal_command; quiet_handler.
Qed.

Lemma server_js_views_ack_first (w : world) (view body : jsval) :
  acked_first_once (trace (ServerJs.add_task_view w view body))
  /\ acked_first_once (trace (ServerJs.send_reminder_view w view body)).
Proof.
  split; unfold ServerJs.add_task_view, ServerJs.send_reminder_view;
    quiet_handler.
Qed.

Lemma part_000_views_ack_first (w : world) (view body : jsval) :
  acked_first_once (trace (Part000.add_task_view w view body))
  /\ acked_first_once (trace (Part000.send_reminder_view w view body)).
Proof.
  split; unfold Part000.add_task_view, Part000.send_reminder_view;
    quiet_handler.
Qed.

Lemma server_js_find_cases (body : jsval) :
  (exists su, ServerJs.find_selected_user body = ret su)
  \/ ServerJs.find_selected_user body = throw TypeError.
Proof.
  destruct (nullish body) eqn:Hb.
  - right. unfold ServerJs.find_selected_user, get. rewrite Hb. reflexivity.
  - left. eexists. apply ExtractorFacts.server_js_find; exact Hb.
Qed.

Lemma part_000_find_cases (body : jsval) :
  (exists su, Part000.find_selected_user body = ret su)
  \/ Part000.find_selected_user body = throw TypeError.
Proof.
  destruct (nullish body) eqn:Hb.
  - right. unfold Part000.find_selected_user, get. rewrite Hb. reflexivity.
  - rewrite ExtractorFacts.part_000_find by exact Hb.
    destruct (ExtractorFacts.part_000_scan_cases
                (own_values (snapshot_values body))) as [-> | ->];
      [left; eexists; reflexivity | right; reflexivity].
Qed.

Ltac last_ack before :=
  split; [eexists before, _; split; reflexivity | reflexivity].

(** The option handler of server.js always ends normally, and its one
    acknowledgment is its last action. *)
Lemma server_js_options_ack_last (w : world) (body : jsval) :
  acked_last_once (trace (ServerJs.options_task_select w body))
  /\ result (ServerJs.options_task_select w body) = Done tt.
Proof.
  destruct (server_js_find_cases body) as [(su & Hf) | Hf].
  - destruct (truthy su) eqn:Ht.
    + rewrite (ProviderFacts.server_js_run w body su Hf Ht).
      destruct (select_open_tasks w su) as [rs|m].
      * destruct (ProviderFacts.server_js_map_rows_cases rs)
          as [(os & -> & _) | ->].
        -- destruct os; last_ack [SelectOpenTasks su].
        -- last_ack [SelectOpenTasks su;
                     ConsoleError (lit "options handler error")].
      * last_ack [SelectOpenTasks su;
                  ConsoleError (lit "options handler error")].
    + rewrite (ProviderFacts.server_js_no_selection w body su Hf Ht).
      last_ack (@nil event).
  - unfold ServerJs.options_task_select. rewrite Hf.
    last_ack [ConsoleError (lit "options handler error")].
Qed.

(** So does the option handler of part_000. *)
Lemma part_000_options_ack_last (w : world) (body : jsval) :
  acked_last_once (trace (Part000.options_task_select w body))
  /\ result (Part000.options_task_select w body) = Done tt.
Proof.
  destruct (part_000_find_cases body) as [(su & Hf) | Hf].
  - destruct (truthy su) eqn:Ht.
    + rewrite (ProviderFacts.part_000_run w body su Hf Ht).
      destruct (select_open_tasks w su) as [[|r rs]|m].
      * last_ack [SelectOpenTasks su].
      * last_ack [SelectOpenTasks su].
      * last_ack [SelectOpenTasks su;
                  ConsoleError (lit "options handler error")].
    + rewrite (ProviderFacts.part_000_no_selection w body su Hf Ht).
      last_ack (@nil event).
  - rewrite (ProviderFacts.part_000_extractor_throws w body Hf).
    last_ack [ConsoleError (lit "options handler error")].
Qed.

(** C8 as stated fails for the option requests: with a user selected the
    first action of either handler is the store query, and the
    acknowledgment follows it. *)
Lemma C8_counterexample :
  let body := options_body picked_U1 in
  (exists opts,
     trace (ServerJs.options_task_select (calm [ship_report]) body)
     = [SelectOpenTasks U1; Ack (Some opts)])
  /\ (exists opts,
        trace (Part000.options_task_select (calm [ship_report]) body)
        = [SelectOpenTasks U1; Ack (Some opts)])
  /\ ~ ack_first (trace (ServerJs.options_task_select (calm [ship_report]) body))
  /\ ~ ack_first (trace (Part000.options_task_select (calm [ship_report]) body)).
Proof.
  cbv zeta. split; [eexists; reflexivity|]. split; [eexists; reflexivity|].
  split; intros (o & rest & H); vm_compute in H; discriminate H.
Qed.

(** C8, amended: every handler issues exactly one acknowledgment.  For the
    four command handlers and the four submission handlers it is the
    first action, before any store access or message.  For the two option
    handlers it is the last action, carrying the options, after the store
    query when there is one; those handlers always end normally. *)
Theorem C8_acknowledged_once (w : world) (view body : jsval) :
  (acked_first_once (trace (ServerJs.addtask_command w body))
   /\ acked_first_once (trace (ServerJs.reminduser_command w body))
   /\ acked_first_once (trace (ServerJs.add_task_view w view body))
   /\ acked_first_once (trace (ServerJs.send_reminder_view w view body)))
  /\ (acked_first_once (trace (Part000.addtask_command w body))
      /\ acked_first_once (trace (Part000.reminduser_command w body))
      /\ acked_first_once (trace (Part000.add_task_view w view body))
      /\ acked_first_once (trace (Part000.send_reminder_view w view body)))
  /\ (acked_last_once (trace (ServerJs.options_task_select w body))
      /\ result (ServerJs.options_task_select w body) = Done tt)
  /\ (acked_last_once (trace (Part000.options_task_select w body))
      /\ result (Part000.options_task_select w body) = Done tt).
Proof.
  pose proof (server_js_commands_ack_first w body) as [? ?].
  pose proof (part_000_commands_ack_first w body) as [? ?].
  pose proof (server_js_views_ack_first w view body) as [? ?].
  pose proof (part_000_views_ack_first w view body) as [? ?].
  pose proof (server_js_options_ack_last w body).
  pose proof (part_000_options_ack_last w body).
  tauto.
Qed.

(** Either way the acknowledgment is the only one. *)
Lemma acked_once_count (t : list event) :
  acked_first_once t \/ acked_last_once t -> ack_count t = 1.
Proof.
  intros [(rest & -> & H) | (before & opts & -> & H)].
  - unfold ack_count in *. simpl. rewrite H. reflexivity.
  - rewrite ack_count_app, H. reflexivity.
Qed.

End AcknowledgmentClaims.

(* ================================================================== *)
(** * The claim about start-up *)

Module StartupClaims.
Import Js Startup Samples.

(** part_000 meets C9: with any of the three variables unset it logs and
    exits with status 1 before anything is constructed. *)
Theorem part_000_exits_on_missing_configuration
  (lib : libraries) (e : environment) :
  SLACK_BOT_TOKEN e = None \/ SLACK_SIGNING_SECRET e = None
  \/ DATABASE_URL e = None ->
  exits_before_serving (part_000 lib e) = true
  /\ exists tag, part_000 lib e = [LogError tag; ExitProcess 1].
Proof.
  intros H. unfold part_000.
  assert (Hm : missing (SLACK_BOT_TOKEN e) || missing (SLACK_SIGNING_SECRET e)
               || missing (DATABASE_URL e) = true).
  { destruct H as [-> | [-> | ->]]; simpl;
      rewrite ?orb_true_r; reflexivity. }
  rewrite Hm. split; [reflexivity | eexists; reflexivity].
Qed.

(** server.js never exits on its own: whenever the constructors return,
    it goes on to listen, whatever the environment holds. *)
Theorem server_js_always_listens (lib : libraries) (e : environment) :
  receiver_constructs lib (SLACK_SIGNING_SECRET e) = true ->
  app_constructs lib (SLACK_BOT_TOKEN e) = true ->
  pool_constructs lib (DATABASE_URL e) = true ->
  existsb is_listen (server_js lib e) = true
  /\ exits_before_serving (server_js lib e) = false.
Proof.
  intros Hr Ha Hp. unfold server_js, construct_and_listen, exits_before_serving.
  rewrite Hr, Ha, Hp. cbn. rewrite andb_false_r. split; reflexivity.
Qed.

(** C9, evaluated where server.js departs from it: with DATABASE_URL
    unset and the other two variables set, server.js builds the pool
    without a connection string and starts to listen, whether or not
    [initDB] then succeeds; no exit occurs.  part_000 exits with status 1
    on the same environment. *)
Theorem C9_server_js_serves_without_database_url :
  DATABASE_URL no_database_url = None
  /\ server_js lenient no_database_url
     = [NewReceiver (Some (lit "secret")); NewApp (Some (lit "xoxb-1"));
        NewPool None; InitDB; Listen DefaultPort]
  /\ server_js database_down no_database_url
     = [NewReceiver (Some (lit "secret")); NewApp (Some (lit "xoxb-1"));
        NewPool None; InitDB; Listen DefaultPort;
        LogError (lit "DB init error")]
  /\ exits_before_serving (server_js lenient no_database_url) = false
  /\ exits_before_serving (server_js database_down no_database_url) = false
  /\ exits_before_serving (part_000 lenient no_database_url) = true.
Proof. repeat split; reflexivity. Qed.

(** With the three variables set, part_000 constructs and listens. *)
Lemma part_000_serves_when_configured :
  part_000 lenient all_set
  = [NewReceiver (Some (lit "secret")); NewApp (Some (lit "xoxb-1"));
     NewPool (Some (lit "postgres://db/tasks")); InitDB; Listen DefaultPort].
Proof. reflexivity. Qed.

End StartupClaims.

(* ================================================================== *)
(** * Labels and values of the options *)

Module LabelFacts.
Import Js Fx Common Spec Store.

Lemma pad_left_length (w : nat) (s : jsstring) :
  List.length (pad_left w s) = Nat.max w (List.length s).
Proof. unfold pad_left. rewrite length_app, repeat_length. lia. Qed.

Lemma toISOString_length (d : jsdate) : 11 <= List.length (toISOString d).
Proof.
  unfold toISOString, iso_year, two_digits.
  destruct ((0 <=? year d)%Z && (year d <=? 9999)%Z);
    repeat (rewrite ?length_app, ?pad_left_length; cbn [List.length]);
    rewrite ?pad_left_length; change (List.length (lit "T")) with 1; lia.
Qed.

(** The date of a label always has ten code units. *)
Lemma iso10_length (d : jsdate) : List.length (iso10 d) = 10.
Proof.
  unfold iso10, slice0. rewrite length_firstn.
  pose proof (toISOString_length d). lia.
Qed.

Lemma due_infix_length : List.length due_infix = 7.
Proof. reflexivity. Qed.

Lemma below_checked (bound : nat) (ok : Z -> bool) :
  forallb (fun n => ok (Z.of_nat n)) (seq 0 bound) = true ->
  forall z, (0 <= z < Z.of_nat bound)%Z -> ok z = true.
Proof.
  intros H z Hz. rewrite forallb_forall in H.
  specialize (H (Z.to_nat z)). rewrite Z2Nat.id in H by lia.
  apply H. apply in_seq. lia.
Qed.

Lemma four_digit_year (y : Z) :
  (0 <= y <= 9999)%Z -> digits_exactly 4 (pad_left 4 (decimal y)) = true.
Proof.
  intros H.
  apply (below_checked (100 * 100)
           (fun z => digits_exactly 4 (pad_left 4 (decimal z))));
    [vm_compute; reflexivity | simpl; lia].
Qed.

Lemma two_digit_field (n : N) :
  (n < 100)%N -> digits_exactly 2 (two_digits n) = true.
Proof.
  intros H. unfold two_digits.
  apply (below_checked 100
           (fun z => digits_exactly 2 (pad_left 2 (decimal z))));
    [vm_compute; reflexivity | simpl; lia].
Qed.

Lemma digits_exactly_4 (s : jsstring) :
  digits_exactly 4 s = true ->
  exists a b c d, s = [a; b; c; d]
    /\ Forall (fun x => is_digit x = true) [a; b; c; d].
Proof.
  unfold digits_exactly. intros H. apply andb_true_iff in H.
  destruct H as [Hl Hd]. apply Nat.eqb_eq in Hl.
  destruct s as [|a [|b [|c [|d [|? ?]]]]]; try discriminate.
  exists a, b, c, d. split; [reflexivity|].
  apply Forall_forall. rewrite forallb_forall in Hd. exact Hd.
Qed.

Lemma digits_exactly_2 (s : jsstring) :
  digits_exactly 2 s = true ->
  exists a b, s = [a; b] /\ Forall (fun x => is_digit x = true) [a; b].
Proof.
  unfold digits_exactly. intros H. apply andb_true_iff in H.
  destruct H as [Hl Hd]. apply Nat.eqb_eq in Hl.
  destruct s as [|a [|b [|? ?]]]; try discriminate.
  exists a, b. split; [reflexivity|].
  apply Forall_forall. rewrite forallb_forall in Hd. exact Hd.
Qed.

(** X1: the due date that both option handlers and both reminder
    handlers print, [toISOString().slice(0, 10)], always has ten code
    units; for a date whose year has at most four digits it reads four
    digits, dash, two digits, dash, two digits, which is the form the
    add-task validation accepts. *)
Theorem X1_shown_dates_pass_the_input_pattern (d : jsdate) :
  List.length (iso10 d) = 10
  /\ ((0 <= year d <= 9999)%Z -> (month d < 100)%N -> (day d < 100)%N ->
      lexical_date (iso10 d) /\ date_regex_test (JStr (iso10 d)) = true).
Proof.
  split; [apply iso10_length|]. intros Hy Hm Hd.
  assert (L : lexical_date (iso10 d)).
  { unfold iso10, toISOString, iso_year.
    assert (Hb : ((0 <=? year d) && (year d <=? 9999))%Z = true).
    { apply andb_true_iff. split; apply Z.leb_le; lia. }
    rewrite Hb.
    destruct (digits_exactly_4 _ (four_digit_year (year d) Hy))
      as (y1 & y2 & y3 & y4 & -> & Fy).
    destruct (digits_exactly_2 _ (two_digit_field (month d) Hm))
      as (m1 & m2 & -> & Fm).
    destruct (digits_exactly_2 _ (two_digit_field (day d) Hd))
      as (d1 & d2 & -> & Fd).
    exists y1, y2, y3, y4, m1, m2, d1, d2. split; [reflexivity|].
    inversion Fy as [|? ? ? Fy1]; inversion Fy1 as [|? ? ? Fy2];
      inversion Fy2 as [|? ? ? Fy3]; inversion Fy3; subst.
    inversion Fm as [|? ? ? Fm1]; inversion Fm1; subst.
    inversion Fd as [|? ? ? Fd1]; inversion Fd1; subst.
    repeat constructor; assumption. }
  split; [exact L|]. apply HandlerFacts.date_regex_test_spec. exact L.
Qed.

Lemma X1_shown_dates_pass_the_input_pattern_witness :
  (0 <= year (Samples.day 2025 3 1) <= 9999)%Z
  /\ (month (Samples.day 2025 3 1) < 100)%N
  /\ (day (Samples.day 2025 3 1) < 100)%N
  /\ date_regex_test (JStr (iso10 (Samples.day 2025 3 1))) = true.
Proof.
  assert (Hy : (0 <= year (Samples.day 2025 3 1) <= 9999)%Z)
    by (vm_compute; split; discriminate).
  assert (Hm : (month (Samples.day 2025 3 1) < 100)%N) by reflexivity.
  assert (Hd : (day (Samples.day 2025 3 1) < 100)%N) by reflexivity.
  split; [exact Hy|]. split; [exact Hm|]. split; [exact Hd|].
  exact (proj2 (proj2 (X1_shown_dates_pass_the_input_pattern
                         (Samples.day 2025 3 1)) Hy Hm Hd)).
Defined.

(** X2: the value of an option built from a row is never one of the
    reserved values [no_user], [no_tasks] and [err] of the placeholders,
    and it is a decimal string; so a selected option tells a task from a
    placeholder. *)
Theorem X2_values_are_not_sentinels (r : row) (d : jsdate) :
  is_sentinel (JStr (value (Part000.option_of_row r))) = false
  /\ is_sentinel (JStr (value (ServerJs.dated_option r d))) = false
  /\ is_decimal_string (value (Part000.option_of_row r)) = true
  /\ is_decimal_string (value (ServerJs.dated_option r d)) = true.
Proof.
  assert (H : is_sentinel (JStr (decimal (id r))) = false).
  { unfold is_sentinel, strict_eq_str.
    pose proof (JsFacts.decimal_is_decimal_string (id r)) as Hd.
    repeat (apply orb_false_iff; split);
      (destruct (str_eqb (decimal (id r)) _) eqn:E; [|reflexivity];
       apply JsFacts.str_eqb_eq in E; rewrite E in Hd; discriminate Hd). }
  repeat split; try exact H; apply JsFacts.decimal_is_decimal_string.
Qed.

(** X3: for a row with a [Date] and a task text of at most 58 code
    units, the two variants build the same option: label
    [text — due YYYY-MM-DD] in full and the id as value. *)
Theorem X3_variants_agree_on_short_texts (r : row) (d : jsdate) :
  due_date r = DueDate d ->
  List.length (task_text r) <= 58 ->
  ServerJs.option_of_row r = ret (Part000.option_of_row r)
  /\ text (Part000.option_of_row r) = task_text r ++ due_infix ++ iso10 d.
Proof.
  intros Hd Hl. unfold ServerJs.option_of_row, Part000.option_of_row,
    ServerJs.dated_option, Part000.label_of_text.
  rewrite Hd. cbn [Part000.due_text text].
  assert (Hs : Nat.ltb 75 (List.length (task_text r)) = false)
    by (apply Nat.ltb_ge; lia).
  rewrite Hs. split; [|reflexivity]. unfold slice0.
  rewrite firstn_all2; [reflexivity|].
  rewrite !length_app, iso10_length, due_infix_length. lia.
Qed.

Lemma X3_variants_agree_on_short_texts_witness :
  due_date Samples.ship_report = DueDate (Samples.day 2025 3 1)
  /\ List.length (task_text Samples.ship_report) <= 58
  /\ ServerJs.option_of_row Samples.ship_report
     = ret (Part000.option_of_row Samples.ship_report).
Proof.
  assert (Hl : List.length (task_text Samples.ship_report) <= 58)
    by (vm_compute; lia).
  split; [reflexivity|]. split; [exact Hl|].
  exact (proj1 (X3_variants_agree_on_short_texts Samples.ship_report
                  (Samples.day 2025 3 1) eq_refl Hl)).
Defined.

(** X4: in part_000 the label of a row with a [Date] has
    [min(length, 75) + 17] code units, so it exceeds the 75 units of an
    option label exactly when the task text is longer than 58, and never
    exceeds 92. *)
Theorem X4_part_000_label_length (r : row) (d : jsdate) :
  due_date r = DueDate d ->
  List.length (text (Part000.option_of_row r))
  = Nat.min (List.length (task_text r)) 75 + 17
  /\ (75 < List.length (text (Part000.option_of_row r))
      <-> 58 < List.length (task_text r))
  /\ List.length (text (Part000.option_of_row r)) <= 92.
Proof.
  intros Hd.
  assert (H : List.length (text (Part000.option_of_row r))
              = Nat.min (List.length (task_text r)) 75 + 17).
  { unfold Part000.option_of_row, Part000.label_of_text. rewrite Hd.
    cbn [Part000.due_text text].
    destruct (Nat.ltb 75 (List.length (task_text r))) eqn:E.
    - apply Nat.ltb_lt in E.
      rewrite !length_app, iso10_length, due_infix_length.
      unfold slice0. rewrite length_firstn.
      change (List.length ellipsis) with 3. lia.
    - apply Nat.ltb_ge in E.
      rewrite !length_app, iso10_length, due_infix_length. lia. }
  rewrite H. repeat split; lia.
Qed.

Lemma X4_part_000_label_length_witness :
  due_date Samples.ship_report = DueDate (Samples.day 2025 3 1)
  /\ List.length (text (Part000.option_of_row Samples.ship_report)) = 28.
Proof.
  split; [reflexivity|].
  rewrite (proj1 (X4_part_000_label_length Samples.ship_report
                    (Samples.day 2025 3 1) eq_refl)).
  reflexivity.
Defined.

(** X5: in server.js the label has [min(75, length + 17)] code units; a
    task text of 75 units or more fills the label alone, so the due date
    is not shown at all, and a text of 59 to 74 units shows a due suffix
    cut short. *)
Theorem X5_server_js_label_cut (r : row) (d : jsdate) :
  List.length (text (ServerJs.dated_option r d))
  = Nat.min 75 (List.length (task_text r) + 17)
  /\ (75 <= List.length (task_text r) ->
      text (ServerJs.dated_option r d) = slice0 75 (task_text r))
  /\ (List.length (task_text r) <= 58 ->
      text (ServerJs.dated_option r d) = task_text r ++ due_infix ++ iso10 d).
Proof.
  unfold ServerJs.dated_option, slice0. cbn [text]. split; [|split].
  - rewrite length_firstn, !length_app, iso10_length, due_infix_length. lia.
  - intros H. rewrite firstn_app.
    replace (75 - List.length (task_text r)) with 0 by lia.
    rewrite firstn_O, app_nil_r. reflexivity.
  - intros H. apply firstn_all2.
    rewrite !length_app, iso10_length, due_infix_length. lia.
Qed.

Lemma X5_server_js_label_cut_witness :
  75 <= List.length (Samples.letters 80)
  /\ text (ServerJs.dated_option
             {| id := 1; task_text := Samples.letters 80;
                due_date := DueDate (Samples.day 2025 3 1) |}
             (Samples.day 2025 3 1))
     = Samples.letters 75.
Proof.
  assert (H : 75 <= List.length (Samples.letters 80)) by (vm_compute; lia).
  split; [exact H|].
  rewrite (proj1 (proj2 (X5_server_js_label_cut
                           {| id := 1; task_text := Samples.letters 80;
                              due_date := DueDate (Samples.day 2025 3 1) |}
                           (Samples.day 2025 3 1))) H).
  reflexivity.
Defined.

End LabelFacts.

(* ================================================================== *)
(** * More on the option handlers *)

Module ProviderExtras.
Import Js Fx Common Spec Store Samples.







Lemma part_000_scan_null (blocks : list jsval) :
  (forall block val, In block blocks -> In val (own_values block) ->
                     is_selected_user_picker val = false) ->
  (exists block, In block blocks /\ nullish block = true) ->
  Part000.scan_blocks blocks = throw TypeError.
Proof.
  intros Hn (nb & Hin & Hnull).
  induction blocks as [|b blocks IH]; [destruct Hin|]. simpl.
  destruct (nullish b) eqn:Hb; [reflexivity|].
  rewrite (ExtractorFacts.scan_fields_none (own_values b)).
  - simpl. apply IH.
    + intros block val Hbl. apply Hn. right; exact Hbl.
    + destruct Hin as [-> | Hin]; [congruence | exact Hin].
  - intros val Hv. apply (Hn b val); [left; reflexivity | exact Hv].
Qed.

(** X8: a request whose form state holds no user picker with a selection.
    server.js acknowledges its [no_user] placeholder, whatever else the
    state holds.  part_000 acknowledges its [no_user] placeholder when no
    block is [null], and otherwise logs a [TypeError] and acknowledges the
    [err] placeholder.  Neither queries the store. *)
Theorem X8_without_selection (w : world) (body : jsval) :
  nullish body = false ->
  no_picker_selected body ->
  ServerJs.options_task_select w body
  = ([Ack (Some [ServerJs.no_user_option])], Done tt)
  /\ (blocks_present body ->
      Part000.options_task_select w body
      = ([Ack (Some [Part000.no_user_option])], Done tt))
  /\ ((exists block, In block (own_values (snapshot_values body))
                     /\ nullish block = true) ->
      Part000.options_task_select w body
      = ([ConsoleError (lit "options handler error");
          Ack (Some [err_option])], Done tt)).
Proof.
  intros Hb Hn. split; [|split].
  - apply (ProviderClaims.server_js_placeholder_without_selection w body Hb Hn).
  - intros Hp.
    apply (ProviderClaims.part_000_placeholder_without_selection
             w body Hb Hp Hn).
  - intros Hx. apply ProviderFacts.part_000_extractor_throws.
    rewrite ExtractorFacts.part_000_find by exact Hb.
    apply part_000_scan_null; assumption.
Qed.

Lemma X8_without_selection_witness :
  nullish (options_body (obj [])) = false
  /\ no_picker_selected (options_body (obj []))
  /\ ServerJs.options_task_select store_down (options_body (obj []))
     = ([Ack (Some [ServerJs.no_user_option])], Done tt).
Proof.
  assert (Hn : no_picker_selected (options_body (obj []))).
  { intros block val Hb. destruct Hb. }
  split; [reflexivity|]. split; [exact Hn|].
  exact (proj1 (X8_without_selection store_down (options_body (obj []))
                  eq_refl Hn)).
Defined.

(** X9: the store is asked about the first selected user.  When the
    first field, in enumeration order, that is a user picker carrying a
    selection holds [u], server.js starts with the query for [u]; so does
    part_000 when no block before that field is [null]; and when a block
    before it is [null], part_000 acknowledges the [err] placeholder
    although a user is selected. *)
Theorem X9_query_for_first_selected_user
  (w : world) (body : jsval) (blocks_before : list jsval) (block : jsval)
  (blocks_after fields_before : list jsval) (val : jsval)
  (fields_after : list jsval) :
  nullish body = false ->
  own_values (snapshot_values body) = blocks_before ++ block :: blocks_after ->
  own_values block = fields_before ++ val :: fields_after ->
  (forall b v, In b blocks_before -> In v (own_values b) ->
               is_selected_user_picker v = false) ->
  (forall v, In v fields_before -> is_selected_user_picker v = false) ->
  is_selected_user_picker val = true ->
  let u := prop val (lit "selected_user") in
  (exists rest,
     trace (ServerJs.options_task_select w body) = SelectOpenTasks u :: rest)
  /\ ((forall b, In b blocks_before -> nullish b = false) ->
      exists rest,
        trace (Part000.options_task_select w body) = SelectOpenTasks u :: rest)
  /\ ((exists b, In b blocks_before /\ nullish b = true) ->
      Part000.options_task_select w body
      = ([ConsoleError (lit "options handler error");
          Ack (Some [err_option])], Done tt)).
Proof.
  intros Hb Hbs Hfs Hnb Hnf Hv u.
  destruct (ExtractorFacts.first_selected_picker_is_found
              body blocks_before block blocks_after fields_before val
              fields_after Hb Hbs Hfs Hnb Hnf Hv) as (Hs & Hp).
  assert (Hu : truthy u = true).
  { unfold is_selected_user_picker in Hv.
    apply andb_true_iff in Hv. exact (proj2 Hv). }
  split; [|split].
  - rewrite (ProviderFacts.server_js_run w body u Hs Hu).
    destruct (select_open_tasks w u) as [rs|m]; [|eexists; reflexivity].
    destruct (ProviderFacts.server_js_map_rows_cases rs)
      as [(os & -> & _) | ->]; [destruct os|]; eexists; reflexivity.
  - intros Hpres.
    rewrite (ProviderFacts.part_000_run w body u (Hp Hpres) Hu).
    destruct (select_open_tasks w u) as [[|r rs]|m]; eexists; reflexivity.
  - intros (nb & Hin & Hnull).
    apply ProviderFacts.part_000_extractor_throws.
    rewrite ExtractorFacts.part_000_find by exact Hb.
    rewrite Hbs. clear Hbs Hs Hp.
    induction blocks_before as [|b bs IH]; [destruct Hin|]. simpl.
    destruct (nullish b) eqn:Hnb'; [reflexivity|].
    rewrite (ExtractorFacts.scan_fields_none (own_values b)).
    + simpl. apply IH.
      * intros b' v Hb'. apply Hnb. right; exact Hb'.
      * destruct Hin as [-> | Hin]; [congruence | exact Hin].
    + intros v Hv'. apply (Hnb b v); [left; reflexivity | exact Hv'].
Qed.

Lemma X9_query_for_first_selected_user_witness :
  own_values (snapshot_values (options_body two_pickers))
  = [obj [("note", text_input (JStr (lit "hello")))]%string]
    ++ obj [("empty_picker", user_picker JNull);
            ("user_select", user_picker U1);
            ("late_picker", user_picker CEO)]%string
    :: []
  /\ is_selected_user_picker (user_picker U1) = true
  /\ exists rest,
       trace (Part000.options_task_select small_world (options_body two_pickers))
       = SelectOpenTasks U1 :: rest.
Proof.
  split; [reflexivity|]. split; [reflexivity|].
  refine (proj1 (proj2 (X9_query_for_first_selected_user
            small_world (options_body two_pickers)
            [obj [("note", text_input (JStr (lit "hello")))]%string]
            (obj [("empty_picker", user_picker JNull);
                  ("user_select", user_picker U1);
                  ("late_picker", user_picker CEO)]%string)
            [] [user_picker JNull] (user_picker U1) [user_picker CEO]
            eq_refl eq_refl eq_refl _ _ eq_refl)) _).
  - intros b v [<- | []] [<- | []]. reflexivity.
  - intros v [<- | []]. reflexivity.
  - intros b [<- | []]. reflexivity.
Defined.

End ProviderExtras.

(* ================================================================== *)
(** * The add-task submission beyond its validation *)

Module AddTaskExtras.
Import Js Fx Common Spec Samples Forms.
Local Open Scope fx_scope.

Lemma prop_nullish_base (v : jsval) (k : jsstring) :
  nullish (prop v k) = false -> nullish v = false.
Proof. destruct v; simpl; try discriminate; reflexivity. Qed.

Lemma get_present (v : jsval) (k : string) :
  nullish v = false -> get v k = ret (prop v (lit k)).
Proof. intros H. unfold get. rewrite H. reflexivity. Qed.

Lemma get_absent (v : jsval) (k : string) :
  nullish v = true -> get v k = throw TypeError.
Proof. intros H. unfold get. rewrite H. reflexivity. Qed.

Lemma get_opt_prop (v : jsval) (k : string) : get_opt v k = prop v (lit k).
Proof. unfold get_opt. destruct v; reflexivity. Qed.

Lemma field_entry (vals : jsval) (b a k : string) :
  Part000.field vals b a k = entry vals b a k.
Proof. unfold Part000.field, entry. rewrite !get_opt_prop. reflexivity. Qed.

(** The states that conform to the add-task view are those with the two
    entries the handler of server.js reads. *)
Lemma add_task_conforms (vals : jsval) :
  state_conforms add_task_modal vals <->
  nullish (prop (prop vals (lit "task_block")) (lit "task_input")) = false
  /\ nullish (prop (prop vals (lit "date_block")) (lit "date_input")) = false.
Proof.
  unfold state_conforms. rewrite Forall_forall. split.
  - intros H. split.
    + refine (H (nth 0 (own_values (prop add_task_modal (lit "blocks")))
                     JUndefined) _).
      vm_compute; auto.
    + refine (H (nth 1 (own_values (prop add_task_modal (lit "blocks")))
                     JUndefined) _).
      vm_compute; auto.
  - intros [H1 H2] block Hb. vm_compute in Hb.
    destruct Hb as [<- | [<- | []]]; assumption.
Qed.

Lemma server_js_add_task_run (w : world) (view body user vals : jsval) :
  envelope view body user vals ->
  ServerJs.add_task_view w view body
  = (emit (Ack None) ;;;
     tb <- get vals "task_block" ;;
     ti <- get tb "task_input" ;;
     task <- get ti "value" ;;
     db <- get vals "date_block" ;;
     di <- get db "date_input" ;;
     dueDate <- get di "value" ;;
     let channel := js_or (prop view (lit "private_metadata")) JNull in
     let params := [user; task; dueDate; user; channel] in
     try_catch (await (InsertTask params) (insert_task w params))
               (fun _ => emit (ConsoleError (lit "DB insert error"))) ;;;
     let msg := saved_text task dueDate in
     try_catch (await (PostMessage user msg) (chat_postMessage w user msg))
               (fun _ => emit (ConsoleError (lit "DM user error")))).
Proof.
  intros (u & st & H1 & H2 & H3 & H4).
  unfold ServerJs.add_task_view. cbn [bind emit].
  rewrite H1, SubmissionClaims.bind_ret_l, H2, SubmissionClaims.bind_ret_l,
    H3, SubmissionClaims.bind_ret_l, H4, SubmissionClaims.bind_ret_l.
  reflexivity.
Qed.

(** X10: server.js, on a form state that has the two entries of the
    add-task view: the row is inserted with the invoker as owner and as
    creator, the two field values as they came and [private_metadata] or
    [null] as channel; whether or not the insert succeeded, the
    confirmation "Your task was saved" is then sent to the invoker; the
    handler ends normally whatever fails. *)
Theorem X10_server_js_add_task_always_confirms
  (w : world) (view body user vals : jsval) :
  envelope view body user vals ->
  state_conforms add_task_modal vals ->
  let task := entry vals "task_block" "task_input" "value" in
  let due := entry vals "date_block" "date_input" "value" in
  let params :=
    [user; task; due; user; js_or (prop view (lit "private_metadata")) JNull] in
  let run := ServerJs.add_task_view w view body in
  result run = Done tt
  /\ trace run
     = [Ack None; InsertTask params]
       ++ when_rejected (insert_task w params)
                        [ConsoleError (lit "DB insert error")]
       ++ [PostMessage user (saved_text task due)]
       ++ when_rejected (chat_postMessage w user (saved_text task due))
                        [ConsoleError (lit "DM user error")].
Proof.
  intros He Hc. apply add_task_conforms in Hc. destruct Hc as [Ht Hd].
  cbv zeta. rewrite (server_js_add_task_run w view body user vals He).
  pose proof (prop_nullish_base _ _ Ht) as Htb.
  pose proof (prop_nullish_base _ _ Htb) as Hv.
  pose proof (prop_nullish_base _ _ Hd) as Hdb.
  rewrite (get_present vals "task_block" Hv), SubmissionClaims.bind_ret_l.
  rewrite (get_present _ "task_input" Htb), SubmissionClaims.bind_ret_l.
  rewrite (get_present _ "value" Ht), SubmissionClaims.bind_ret_l.
  rewrite (get_present vals "date_block" Hv), SubmissionClaims.bind_ret_l.
  rewrite (get_present _ "date_input" Hdb), SubmissionClaims.bind_ret_l.
  rewrite (get_present _ "value" Hd), SubmissionClaims.bind_ret_l.
  cbv zeta. unfold entry.
  destruct (insert_task w _); destruct (chat_postMessage w _ _);
    split; reflexivity.
Qed.

Lemma X10_server_js_add_task_always_confirms_witness :
  let vals := task_form (JStr (lit "Ship report")) (JStr (lit "2025-03-01")) in
  envelope (view_of vals) (body_of CEO) CEO vals
  /\ state_conforms add_task_modal vals
  /\ trace (ServerJs.add_task_view store_down (view_of vals) (body_of CEO))
     = [Ack None;
        InsertTask [CEO; JStr (lit "Ship report"); JStr (lit "2025-03-01");
                    CEO; JNull];
        ConsoleError (lit "DB insert error");
        PostMessage CEO (saved_text (JStr (lit "Ship report"))
                                    (JStr (lit "2025-03-01")))].
Proof.
  cbv zeta.
  assert (He : envelope
                 (view_of (task_form (JStr (lit "Ship report"))
                                     (JStr (lit "2025-03-01"))))
                 (body_of CEO) CEO
                 (task_form (JStr (lit "Ship report"))
                            (JStr (lit "2025-03-01")))).
  { do 2 eexists. repeat split; reflexivity. }
  assert (Hc : state_conforms add_task_modal
                 (task_form (JStr (lit "Ship report"))
                            (JStr (lit "2025-03-01")))).
  { apply add_task_conforms. split; reflexivity. }
  split; [exact He|]. split; [exact Hc|].
  rewrite (proj2 (X10_server_js_add_task_always_confirms
                    store_down _ _ _ _ He Hc)).
  reflexivity.
Defined.

(** X11: server.js, on a form state that lacks one of the two entries:
    after the acknowledgment the handler throws a [TypeError]; nothing is
    inserted and nothing is sent.  part_000 answers the same state with
    its private notice and ends normally. *)
Theorem X11_server_js_add_task_missing_entry
  (w : world) (view body user vals : jsval) :
  envelope view body user vals ->
  ~ state_conforms add_task_modal vals ->
  ServerJs.add_task_view w view body = ([Ack None], Threw TypeError)
  /\ result (Part000.add_task_view w view body) = Done tt
  /\ exists rest,
       trace (Part000.add_task_view w view body)
       = Ack None
         :: PostEphemeral user user Part000.invalid_task_notice :: rest.
Proof.
  intros He Hc. rewrite add_task_conforms in Hc.
  split.
  - rewrite (server_js_add_task_run w view body user vals He).
    destruct (nullish vals) eqn:Hv;
      [rewrite (get_absent vals "task_block" Hv); reflexivity|].
    rewrite (get_present vals "task_block" Hv), SubmissionClaims.bind_ret_l.
    destruct (nullish (prop vals (lit "task_block"))) eqn:Htb;
      [rewrite (get_absent _ "task_input" Htb); reflexivity|].
    rewrite (get_present _ "task_input" Htb), SubmissionClaims.bind_ret_l.
    destruct (nullish (prop (prop vals (lit "task_block")) (lit "task_input")))
      eqn:Ht; [rewrite (get_absent _ "value" Ht); reflexivity|].
    rewrite (get_present _ "value" Ht), SubmissionClaims.bind_ret_l.
    rewrite (get_present vals "date_block" Hv), SubmissionClaims.bind_ret_l.
    destruct (nullish (prop vals (lit "date_block"))) eqn:Hdb;
      [rewrite (get_absent _ "date_input" Hdb); reflexivity|].
    rewrite (get_present _ "date_input" Hdb), SubmissionClaims.bind_ret_l.
    destruct (nullish (prop (prop vals (lit "date_block")) (lit "date_input")))
      eqn:Hd; [rewrite (get_absent _ "value" Hd); reflexivity|].
    exfalso. apply Hc. split; reflexivity.
  - assert (Hn : ~ task_submission_valid vals).
    { intros [Ht Hd]. apply Hc. split.
      - rewrite field_entry in Ht. unfold entry in Ht.
        destruct (prop (prop vals (lit "task_block")) (lit "task_input"));
          simpl in *; try reflexivity; discriminate.
      - unfold Part000.due_date_of in Hd. rewrite field_entry in Hd.
        unfold entry, js_or in Hd.
        destruct (prop (prop vals (lit "date_block")) (lit "date_input"));
          simpl in *; try reflexivity;
          destruct Hd as (? & ? & ? & ? & ? & ? & ? & ? & Hd & _);
          discriminate Hd. }
    rewrite (SubmissionClaims.part_000_add_task_run w view body user vals He).
    cbv zeta.
    rewrite <- SubmissionClaims.task_submission_ok_valid in Hn.
    apply not_true_is_false in Hn. rewrite Hn. cbn [negb].
    unfold Part000.try_ephemeral.
    destruct (chat_postEphemeral w _ _ _); cbn;
      (split; [reflexivity | eexists; reflexivity]).
Qed.

Lemma X11_server_js_add_task_missing_entry_witness :
  let vals := obj [("task_block",
                    obj [("task_input", text_input (JStr (lit "x")))])]%string in
  envelope (view_of vals) (body_of CEO) CEO vals
  /\ ~ state_conforms add_task_modal vals
  /\ ServerJs.add_task_view (calm []) (view_of vals) (body_of CEO)
     = ([Ack None], Threw TypeError).
Proof.
  cbv zeta.
  assert (He : envelope
                 (view_of (obj [("task_block",
                     obj [("task_input", text_input (JStr (lit "x")))])]%string))
                 (body_of CEO) CEO
                 (obj [("task_block",
                     obj [("task_input", text_input (JStr (lit "x")))])]%string)).
  { do 2 eexists. repeat split; reflexivity. }
  assert (Hc : ~ state_conforms add_task_modal
                 (obj [("task_block",
                     obj [("task_input", text_input (JStr (lit "x")))])]%string)).
  { intros H. apply add_task_conforms in H. destruct H as [_ H].
    discriminate H. }
  split; [exact He|]. split; [exact Hc|].
  exact (proj1 (X11_server_js_add_task_missing_entry (calm []) _ _ _ _ He Hc)).
Defined.

(** X12: part_000, on a valid submission.  The row is inserted with the
    invoker as owner and creator; the confirmation is sent only after the
    insert succeeded; when the insert fails no confirmation is sent and
    the invoker is told "Failed to save task (server error)."; when the
    insert succeeds and the confirmation fails, the invoker is told the
    same although the row is stored.  The handler always ends normally. *)
Theorem X12_part_000_add_task_outcomes
  (w : world) (view body user vals : jsval) :
  envelope view body user vals ->
  task_submission_valid vals ->
  let task := Part000.task_text_of vals in
  let due := Part000.due_date_of vals in
  let params := [user; task; due; user] in
  let failed := lit "Failed to save task (server error)." in
  let notice :=
    [ConsoleError (lit "DB insert or DM error");
     PostEphemeral user user failed]
    ++ when_rejected (chat_postEphemeral w user user failed)
                     [ConsoleError (lit "ephemeral send failed")] in
  let run := Part000.add_task_view w view body in
  result run = Done tt
  /\ trace run
     = match insert_task w params with
       | Some _ => [Ack None; InsertTask params] ++ notice
       | None =>
           [Ack None; InsertTask params;
            PostMessage user (saved_text task due)]
           ++ when_rejected (chat_postMessage w user (saved_text task due))
                            notice
       end.
Proof.
  intros He Hv. cbv zeta.
  rewrite (SubmissionClaims.part_000_add_task_run w view body user vals He).
  cbv zeta. apply SubmissionClaims.task_submission_ok_valid in Hv.
  rewrite Hv. cbn [negb]. unfold Part000.try_ephemeral.
  destruct (insert_task w _);
    [|destruct (chat_postMessage w _ _)];
    cbn;
    repeat match goal with
      | |- context [chat_postEphemeral w ?a ?b ?c] =>
          destruct (chat_postEphemeral w a b c); cbn
      end; split; reflexivity.
Qed.

Lemma X12_part_000_add_task_outcomes_witness :
  let vals := task_form (JStr (lit "Ship report")) (JStr (lit "2025-03-01")) in
  envelope (view_of vals) (body_of CEO) CEO vals
  /\ task_submission_valid vals
  /\ trace (Part000.add_task_view store_down (view_of vals) (body_of CEO))
     = [Ack None;
        InsertTask [CEO; JStr (lit "Ship report"); JStr (lit "2025-03-01"); CEO];
        ConsoleError (lit "DB insert or DM error");
        PostEphemeral CEO CEO (lit "Failed to save task (server error).")].
Proof.
  cbv zeta.
  assert (He : envelope
                 (view_of (task_form (JStr (lit "Ship report"))
                                     (JStr (lit "2025-03-01"))))
                 (body_of CEO) CEO
                 (task_form (JStr (lit "Ship report"))
                            (JStr (lit "2025-03-01")))).
  { do 2 eexists. repeat split; reflexivity. }
  assert (Hv : task_submission_valid
                 (task_form (JStr (lit "Ship report"))
                            (JStr (lit "2025-03-01")))).
  { split; [reflexivity|]. apply HandlerFacts.date_pattern_spec. reflexivity. }
  split; [exact He|]. split; [exact Hv|].
  rewrite (proj2 (X12_part_000_add_task_outcomes store_down _ _ _ _ He Hv)).
  reflexivity.
Defined.

End AddTaskExtras.

(* ================================================================== *)
(** * The reminder submission beyond its validation *)

Module ReminderExtras.
Import Js Fx Common Spec Samples Forms AddTaskExtras.
Local Open Scope fx_scope.

Lemma prop_truthy_base (v : jsval) (k : jsstring) :
  nullish (prop v k) = false -> truthy v = true.
Proof. destruct v; simpl; try discriminate; reflexivity. Qed.

Lemma js_or_twice (m : jsval) :
  js_or (js_or m (JStr [])) (JStr []) = js_or m (JStr []).
Proof. unfold js_or. destruct (truthy m) eqn:E; [rewrite E|]; reflexivity. Qed.

(** The states that conform to the reminder view of server.js are those
    with the three entries its handler reads. *)
Lemma reminder_conforms (vals : jsval) :
  state_conforms server_js_reminder_modal vals <->
  nullish (prop (prop vals (lit "user_select_block")) (lit "user_select")) = false
  /\ nullish (prop (prop vals (lit "task_select_block")) (lit "task_select"))
     = false
  /\ nullish (prop (prop vals (lit "custom_message_block"))
                   (lit "custom_message")) = false.
Proof.
  unfold state_conforms. rewrite Forall_forall. split.
  - intros H. split; [|split].
    + refine (H (nth 0 (own_values (prop server_js_reminder_modal (lit "blocks")))
                     JUndefined) _).
      vm_compute; auto.
    + refine (H (nth 1 (own_values (prop server_js_reminder_modal (lit "blocks")))
                     JUndefined) _).
      vm_compute; auto.
    + refine (H (nth 2 (own_values (prop server_js_reminder_modal (lit "blocks")))
                     JUndefined) _).
      vm_compute; auto.
  - intros (H1 & H2 & H3) block Hb. vm_compute in Hb.
    destruct Hb as [<- | [<- | [<- | []]]]; assumption.
Qed.

(** The view of part_000 asks for the same entries. *)
Lemma reminder_views_agree (vals : jsval) :
  state_conforms part_000_reminder_modal vals
  <-> state_conforms server_js_reminder_modal vals.
Proof.
  rewrite reminder_conforms. unfold state_conforms. rewrite Forall_forall.
  split.
  - intros H. split; [|split].
    + refine (H (nth 0 (own_values (prop part_000_reminder_modal (lit "blocks")))
                     JUndefined) _).
      vm_compute; auto.
    + refine (H (nth 1 (own_values (prop part_000_reminder_modal (lit "blocks")))
                     JUndefined) _).
      vm_compute; auto.
    + refine (H (nth 2 (own_values (prop part_000_reminder_modal (lit "blocks")))
                     JUndefined) _).
      vm_compute; auto.
  - intros (H1 & H2 & H3) block Hb. vm_compute in Hb.
    destruct Hb as [<- | [<- | [<- | []]]]; assumption.
Qed.

(** server.js on a conforming state: every path of lines 216-219 is
    read, and the handler goes on to the store. *)
Lemma server_js_reminder_run (w : world) (view body ceo vals : jsval) :
  envelope view body ceo vals ->
  state_conforms server_js_reminder_modal vals ->
  ServerJs.send_reminder_view w view body
  = (emit (Ack None) ;;;
     let userSelect :=
       entry vals "user_select_block" "user_select" "selected_user" in
     let taskId := server_js_task_id vals in
     let customMsg :=
       entry vals "custom_message_block" "custom_message" "value" in
     try_catch
       (rows <- await_query (SelectTask taskId) (select_task w taskId) ;;
        if Nat.eqb (List.length rows) 0 then
          let msg := lit "Task not found." in
          await (PostEphemeral ceo ceo msg) (chat_postEphemeral w ceo ceo msg)
        else
          task <- first_row rows ;;
          due <- match due_date task with
                 | DueDate d => ret (iso10 d)
                 | DueText _ => throw TypeError
                 end ;;
          let msg := reminder_text (task_text task) due customMsg in
          await (PostMessage userSelect msg)
                (chat_postMessage w userSelect msg) ;;;
          let conf := sent_text userSelect taskId in
          await (PostEphemeral ceo ceo conf)
                (chat_postEphemeral w ceo ceo conf))
       (fun err =>
          emit (ConsoleError (lit "send reminder error")) ;;;
          let msg := lit "Failed to send reminder: " ++ err_message w err in
          await (PostEphemeral ceo ceo msg)
                (chat_postEphemeral w ceo ceo msg))).
Proof.
  intros (u & st & H1 & H2 & H3 & H4) Hc.
  apply reminder_conforms in Hc. destruct Hc as (Hu & Ht & Hm).
  pose proof (prop_nullish_base _ _ Hu) as Hub.
  pose proof (prop_nullish_base _ _ Hub) as Hv.
  pose proof (prop_nullish_base _ _ Ht) as Htb.
  pose proof (prop_truthy_base _ _ Hm) as Hcb.
  unfold ServerJs.send_reminder_view. cbn [bind emit].
  rewrite H1, SubmissionClaims.bind_ret_l, H2, SubmissionClaims.bind_ret_l,
    H3, SubmissionClaims.bind_ret_l, H4, SubmissionClaims.bind_ret_l.
  rewrite (get_present vals "user_select_block" Hv), SubmissionClaims.bind_ret_l.
  rewrite (get_present _ "user_select" Hub), SubmissionClaims.bind_ret_l.
  rewrite (get_present _ "selected_user" Hu), SubmissionClaims.bind_ret_l.
  rewrite (get_present vals "task_select_block" Hv), SubmissionClaims.bind_ret_l.
  rewrite (get_present _ "task_select" Htb), SubmissionClaims.bind_ret_l.
  rewrite (get_present _ "selected_option" Ht), SubmissionClaims.bind_ret_l.
  cbv zeta. rewrite Hcb.
  rewrite (get_present _ "custom_message"
             (prop_nullish_base _ _ Hm)), SubmissionClaims.bind_ret_l.
  rewrite (get_present _ "value" Hm), SubmissionClaims.bind_ret_l.
  reflexivity.
Qed.

Lemma part_000_reads_the_same (vals : jsval) :
  truthy (server_js_task_id vals) = true ->
  Part000.user_selected_of vals
  = entry vals "user_select_block" "user_select" "selected_user"
  /\ Part000.task_id_of vals = server_js_task_id vals
  /\ Part000.custom_message_of vals
     = js_or (entry vals "custom_message_block" "custom_message" "value")
             (JStr []).
Proof.
  intros Ht. unfold Part000.user_selected_of, Part000.task_id_of,
    Part000.custom_message_of, server_js_task_id in *.
  rewrite !field_entry. split; [reflexivity|]. split; [|reflexivity].
  unfold js_and in *. cbv zeta in *.
  destruct (truthy (entry vals "task_select_block" "task_select"
                          "selected_option")) eqn:E; [reflexivity|].
  rewrite E in Ht. discriminate Ht.
Qed.

Ltac run_step :=
  cbn [bind ret throw emit await await_query first_row try_catch
       Nat.eqb List.length app negb andb Part000.due_text].

(** X13: part_000 sends at most one reminder, and only this one: to the
    selected user, after both selections were found present and the store
    returned a row for the selected option value, with the text and due
    date of that row and the custom message.  Whatever the store and the
    messaging calls do, the handler ends normally. *)
Theorem X13_part_000_reminder_dispatch
  (w : world) (view body ceo vals : jsval) :
  envelope view body ceo vals ->
  let run := Part000.send_reminder_view w view body in
  let user := Part000.user_selected_of vals in
  let taskId := Part000.task_id_of vals in
  result run = Done tt
  /\ List.length (filter is_post_message (trace run)) <= 1
  /\ (forall channel msg,
        In (PostMessage channel msg) (trace run) ->
        channel = user /\ truthy user = true /\ truthy taskId = true
        /\ exists task rows,
             select_task w taskId = Rows (task :: rows)
             /\ msg = reminder_text (task_text task)
                        (Part000.due_text (due_date task))
                        (Part000.custom_message_of vals)).
Proof.
  intros He. cbv zeta.
  rewrite (ReminderClaims.part_000_reminder_run w view body ceo vals He).
  cbv zeta. unfold Part000.reminder_submission_ok, Part000.try_ephemeral.
  destruct (truthy (Part000.user_selected_of vals)) eqn:Hu;
    [destruct (truthy (Part000.task_id_of vals)) eqn:Ht|];
    cbn [andb negb].
  - destruct (select_task w (Part000.task_id_of vals)) as [[|task rows]|m]
      eqn:Hq; cbn;
      repeat match goal with
        | |- context [chat_postMessage w ?a ?b] =>
            destruct (chat_postMessage w a b); cbn
        | |- context [chat_postEphemeral w ?a ?b ?c] =>
            destruct (chat_postEphemeral w a b c); cbn
        end;
      (split; [reflexivity|]; split; [lia|]);
      intros channel msg Hin;
      repeat (destruct Hin as [Hin|Hin]; try discriminate Hin);
      try contradiction;
      injection Hin as <- <-;
      (split; [reflexivity|]; split; [reflexivity|]; split; [reflexivity|]);
      exists task, rows; split; reflexivity.
  - destruct (chat_postEphemeral w _ _ _); cbn;
      (split; [reflexivity|]; split; [lia|]);
      intros channel msg Hin;
      repeat (destruct Hin as [Hin|Hin]; try discriminate Hin); contradiction.
  - destruct (chat_postEphemeral w _ _ _); cbn;
      (split; [reflexivity|]; split; [lia|]);
      intros channel msg Hin;
      repeat (destruct Hin as [Hin|Hin]; try discriminate Hin); contradiction.
Qed.

Lemma X13_part_000_reminder_dispatch_witness :
  let vals := reminder_state U1 (JStr (lit "7")) (JStr (lit "today please")) in
  envelope (view_of vals) (body_of CEO) CEO vals
  /\ result (Part000.send_reminder_view (calm [ship_report])
                                        (view_of vals) (body_of CEO))
     = Done tt.
Proof.
  cbv zeta.
  assert (He : envelope
                 (view_of (reminder_state U1 (JStr (lit "7"))
                                          (JStr (lit "today please"))))
                 (body_of CEO) CEO
                 (reminder_state U1 (JStr (lit "7"))
                                 (JStr (lit "today please")))).
  { do 2 eexists. repeat split; reflexivity. }
  split; [exact He|].
  exact (proj1 (X13_part_000_reminder_dispatch (calm [ship_report]) _ _ _ _ He)).
Defined.

(** X14: a reminder that goes through.  On a state with the three entries
    of the reminder view, a present option value whose lookup returns a
    row with a [Date], and two messaging calls that resolve, both
    variants do the same four things: acknowledge, look the value up, send
    the reminder with task text, due date and custom message to the
    selected user, and confirm privately to the invoker naming the user
    and the task id. *)
Theorem X14_reminder_goes_through
  (w : world) (view body ceo vals : jsval) (task : row) (rows : list row)
  (d : jsdate) :
  envelope view body ceo vals ->
  state_conforms server_js_reminder_modal vals ->
  let user := entry vals "user_select_block" "user_select" "selected_user" in
  let taskId := server_js_task_id vals in
  let msg :=
    reminder_text (task_text task) (iso10 d)
      (entry vals "custom_message_block" "custom_message" "value") in
  let conf := sent_text user taskId in
  truthy user = true ->
  truthy taskId = true ->
  select_task w taskId = Rows (task :: rows) ->
  due_date task = DueDate d ->
  chat_postMessage w user msg = None ->
  chat_postEphemeral w ceo ceo conf = None ->
  ServerJs.send_reminder_view w view body
  = ([Ack None; SelectTask taskId; PostMessage user msg;
      PostEphemeral ceo ceo conf], Done tt)
  /\ Part000.send_reminder_view w view body
     = ([Ack None; SelectTask taskId; PostMessage user msg;
         PostEphemeral ceo ceo conf], Done tt).
Proof.
  intros He Hc user taskId msg conf Hu Ht Hq Hd Hpm Hpe.
  subst user taskId msg conf. split.
  - rewrite (server_js_reminder_run w view body ceo vals He Hc). cbv zeta.
    rewrite Hq. run_step. rewrite Hd. run_step. rewrite Hpm. run_step.
    rewrite Hpe. reflexivity.
  - rewrite (ReminderClaims.part_000_reminder_run w view body ceo vals He).
    cbv zeta. destruct (part_000_reads_the_same vals Ht) as (-> & -> & ->).
    unfold Part000.reminder_submission_ok. rewrite Hu, Ht. cbn [andb negb].
    rewrite Hq. run_step. rewrite Hd. run_step.
    assert (Hm : forall t u0 m0,
               reminder_text t u0 (js_or m0 (JStr [])) = reminder_text t u0 m0).
    { intros t u0 m0. unfold reminder_text. rewrite js_or_twice. reflexivity. }
    rewrite Hm, Hpm. run_step. rewrite Hpe. reflexivity.
Qed.

Lemma X14_reminder_goes_through_witness :
  let vals := reminder_state U1 (JStr (lit "7")) (JStr (lit "today please")) in
  envelope (view_of vals) (body_of CEO) CEO vals
  /\ state_conforms server_js_reminder_modal vals
  /\ ServerJs.send_reminder_view (calm [ship_report]) (view_of vals) (body_of CEO)
     = Part000.send_reminder_view (calm [ship_report]) (view_of vals)
                                  (body_of CEO).
Proof.
  cbv zeta.
  assert (He : envelope
                 (view_of (reminder_state U1 (JStr (lit "7"))
                                          (JStr (lit "today please"))))
                 (body_of CEO) CEO
                 (reminder_state U1 (JStr (lit "7"))
                                 (JStr (lit "today please")))).
  { do 2 eexists. repeat split; reflexivity. }
  assert (Hc : state_conforms server_js_reminder_modal
                 (reminder_state U1 (JStr (lit "7"))
                                 (JStr (lit "today please")))).
  { apply reminder_conforms. repeat split; reflexivity. }
  split; [exact He|]. split; [exact Hc|].
  destruct (X14_reminder_goes_through (calm [ship_report]) _ _ _ _
              ship_report [] (day 2025 3 1) He Hc
              eq_refl eq_refl eq_refl eq_refl eq_refl eq_refl) as [-> ->].
  reflexivity.
Defined.

(** X15: a task that is gone.  When the lookup of the selected option
    value returns no row, neither variant sends a reminder: server.js
    tells the invoker "Task not found.", part_000 "Task not found (may
    have been deleted).". *)
Theorem X15_task_not_found
  (w : world) (view body ceo vals : jsval) :
  envelope view body ceo vals ->
  state_conforms server_js_reminder_modal vals ->
  let user := entry vals "user_select_block" "user_select" "selected_user" in
  let taskId := server_js_task_id vals in
  truthy user = true ->
  truthy taskId = true ->
  select_task w taskId = Rows [] ->
  (existsb is_post_message (trace (ServerJs.send_reminder_view w view body))
   = false
   /\ exists rest,
        trace (ServerJs.send_reminder_view w view body)
        = Ack None :: SelectTask taskId
          :: PostEphemeral ceo ceo (lit "Task not found.") :: rest)
  /\ (existsb is_post_message (trace (Part000.send_reminder_view w view body))
      = false
      /\ exists rest,
           trace (Part000.send_reminder_view w view body)
           = Ack None :: SelectTask taskId
             :: PostEphemeral ceo ceo
                  (lit "Task not found (may have been deleted).") :: rest).
Proof.
  intros He Hc user taskId Hu Ht Hq. subst user taskId. split.
  - rewrite (server_js_reminder_run w view body ceo vals He Hc). cbv zeta.
    rewrite Hq. cbn.
    repeat match goal with
      | |- context [chat_postEphemeral w ?a ?b ?c] =>
          destruct (chat_postEphemeral w a b c); cbn
      end; (split; [reflexivity | eexists; reflexivity]).
  - rewrite (ReminderClaims.part_000_reminder_run w view body ceo vals He).
    cbv zeta. destruct (part_000_reads_the_same vals Ht) as (-> & -> & ->).
    unfold Part000.reminder_submission_ok, Part000.try_ephemeral.
    rewrite Hu, Ht. cbn [andb negb]. rewrite Hq. cbn.
    repeat match goal with
      | |- context [chat_postEphemeral w ?a ?b ?c] =>
          destruct (chat_postEphemeral w a b c); cbn
      end; (split; [reflexivity | eexists; reflexivity]).
Qed.

Lemma X15_task_not_found_witness :
  let vals := reminder_state U1 (JStr (lit "7")) JNull in
  envelope (view_of vals) (body_of CEO) CEO vals
  /\ state_conforms server_js_reminder_modal vals
  /\ select_task (calm []) (server_js_task_id vals) = Rows []
  /\ existsb is_post_message
       (trace (ServerJs.send_reminder_view (calm []) (view_of vals)
                                           (body_of CEO))) = false.
Proof.
  cbv zeta.
  assert (He : envelope
                 (view_of (reminder_state U1 (JStr (lit "7")) JNull))
                 (body_of CEO) CEO
                 (reminder_state U1 (JStr (lit "7")) JNull)).
  { do 2 eexists. repeat split; reflexivity. }
  assert (Hc : state_conforms server_js_reminder_modal
                 (reminder_state U1 (JStr (lit "7")) JNull)).
  { apply reminder_conforms. repeat split; reflexivity. }
  split; [exact He|]. split; [exact Hc|]. split; [reflexivity|].
  exact (proj1 (proj1 (X15_task_not_found (calm []) _ _ _ _ He Hc
                         eq_refl eq_refl eq_refl))).
Defined.

(** X16: server.js checks no selection.  On a state with the three
    entries of the reminder view it always looks the option value up
    first, even an absent one; when a row with a [Date] comes back the
    reminder is posted to whatever the user entry holds, [null] included;
    and when the lookup is rejected and the failure notice is rejected as
    well, the handler itself ends with that rejection. *)
Theorem X16_server_js_reminder_unchecked
  (w : world) (view body ceo vals : jsval) :
  envelope view body ceo vals ->
  state_conforms server_js_reminder_modal vals ->
  let user := entry vals "user_select_block" "user_select" "selected_user" in
  let taskId := server_js_task_id vals in
  let run := ServerJs.send_reminder_view w view body in
  (exists rest, trace run = Ack None :: SelectTask taskId :: rest)
  /\ (forall task rows d,
        select_task w taskId = Rows (task :: rows) ->
        due_date task = DueDate d ->
        exists rest,
          trace run
          = Ack None :: SelectTask taskId
            :: PostMessage user
                 (reminder_text (task_text task) (iso10 d)
                    (entry vals "custom_message_block" "custom_message" "value"))
            :: rest)
  /\ (forall m m',
        select_task w taskId = QueryError m ->
        chat_postEphemeral w ceo ceo (lit "Failed to send reminder: " ++ m)
        = Some m' ->
        result run = Threw (Rejected m')).
Proof.
  intros He Hc user taskId run. subst user taskId run.
  rewrite (server_js_reminder_run w view body ceo vals He Hc). cbv zeta.
  split; [|split].
  - destruct (select_task w _) as [[|task rows]|m]; cbn;
      [| destruct (due_date task); cbn |];
      repeat match goal with
        | |- context [chat_postMessage w ?a ?b] =>
            destruct (chat_postMessage w a b); cbn
        | |- context [chat_postEphemeral w ?a ?b ?c] =>
            destruct (chat_postEphemeral w a b c); cbn
        end; eexists; reflexivity.
  - intros task rows d Hq Hd. rewrite Hq. cbn. rewrite Hd. cbn.
    repeat match goal with
      | |- context [chat_postMessage w ?a ?b] =>
          destruct (chat_postMessage w a b); cbn
      | |- context [chat_postEphemeral w ?a ?b ?c] =>
          destruct (chat_postEphemeral w a b c); cbn
      end; eexists; reflexivity.
  - intros m m' Hq Hp. rewrite Hq. run_step. cbn [err_message].
    rewrite Hp. reflexivity.
Qed.

Lemma X16_server_js_reminder_unchecked_witness :
  let vals := reminder_state JNull (JStr (lit "7")) JNull in
  envelope (view_of vals) (body_of CEO) CEO vals
  /\ state_conforms server_js_reminder_modal vals
  /\ exists rest,
       trace (ServerJs.send_reminder_view (calm [ship_report]) (view_of vals)
                                          (body_of CEO))
       = Ack None :: SelectTask (JStr (lit "7"))
         :: PostMessage JNull
              (reminder_text (lit "Ship report") (lit "2025-03-01") JNull)
         :: rest.
Proof.
  cbv zeta.
  assert (He : envelope
                 (view_of (reminder_state JNull (JStr (lit "7")) JNull))
                 (body_of CEO) CEO
                 (reminder_state JNull (JStr (lit "7")) JNull)).
  { do 2 eexists. repeat split; reflexivity. }
  assert (Hc : state_conforms server_js_reminder_modal
                 (reminder_state JNull (JStr (lit "7")) JNull)).
  { apply reminder_conforms. repeat split; reflexivity. }
  split; [exact He|]. split; [exact Hc|].
  exact (proj1 (proj2 (X16_server_js_reminder_unchecked
                         (calm [ship_report]) _ _ _ _ He Hc))
               ship_report [] (day 2025 3 1) eq_refl eq_refl).
Defined.

End ReminderExtras.

(* ================================================================== *)
(** * Start-up beyond the configuration check *)

Module StartupExtras.
Import Js Startup Samples.

(** X17: part_000 exits with a non-zero status before it listens exactly
    when one of the three variables is unset or empty, or one of the
    three constructors throws; otherwise it listens. *)
Theorem X17_part_000_exit_before_serving (lib : libraries) (e : environment) :
  exits_before_serving (part_000 lib e)
  = (missing (SLACK_BOT_TOKEN e) || missing (SLACK_SIGNING_SECRET e)
     || missing (DATABASE_URL e)
     || negb (receiver_constructs lib (SLACK_SIGNING_SECRET e))
     || negb (app_constructs lib (SLACK_BOT_TOKEN e))
     || negb (pool_constructs lib (DATABASE_URL e)))
  /\ existsb is_listen (part_000 lib e)
     = negb (exits_before_serving (part_000 lib e)).
Proof.
  unfold part_000, construct_and_listen, exits_before_serving.
  destruct (missing (SLACK_BOT_TOKEN e)); [split; reflexivity|].
  destruct (missing (SLACK_SIGNING_SECRET e)); [split; reflexivity|].
  destruct (missing (DATABASE_URL e)); [split; reflexivity|].
  destruct (receiver_constructs lib _); [|split; reflexivity].
  destruct (app_constructs lib _); [|split; reflexivity].
  destruct (pool_constructs lib _); [|split; reflexivity].
  destruct (initdb_succeeds lib); split; reflexivity.
Qed.

(** X18: server.js exits before it listens exactly when one of the three
    constructors throws: the environment is handed on unread, so a
    missing variable alone never stops it. *)
Theorem X18_server_js_exit_before_serving (lib : libraries) (e : environment) :
  exits_before_serving (server_js lib e)
  = (negb (receiver_constructs lib (SLACK_SIGNING_SECRET e))
     || negb (app_constructs lib (SLACK_BOT_TOKEN e))
     || negb (pool_constructs lib (DATABASE_URL e)))
  /\ existsb is_listen (server_js lib e)
     = negb (exits_before_serving (server_js lib e)).
Proof.
  unfold server_js, construct_and_listen, exits_before_serving.
  destruct (receiver_constructs lib _); [|split; reflexivity].
  destruct (app_constructs lib _); [|split; reflexivity].
  destruct (pool_constructs lib _); [|split; reflexivity].
  destruct (initdb_succeeds lib); split; reflexivity.
Qed.



End StartupExtras.

(* ================================================================== *)
(** * Rows whose due date is not a [Date] *)

Module UndatedRows.
Import Js Fx Common Spec Samples.

Lemma server_js_map_rows_undated (rs : list row) :
  Exists (fun r => ~ has_date r) rs ->
  map_rows ServerJs.option_of_row rs = throw TypeError.
Proof.
  induction 1 as [r rs Hr | r rs _ IH].
  - destruct r as [i t [d|s]]; [exfalso; apply Hr; exists d; reflexivity|].
    reflexivity.
  - destruct r as [i t [d|s]]; [|reflexivity].
    cbn. rewrite IH. reflexivity.
Qed.

(** X20: when one of the rows the store returns carries a due date that
    is not a [Date], server.js gives up the whole list: it logs the
    [TypeError] and acknowledges the single [err] placeholder.  part_000
    acknowledges one option per row and prints such a due date as the
    text it is. *)
Theorem X20_rows_without_a_date
  (w : world) (body su : jsval) (rs : list row) :
  truthy su = true ->
  select_open_tasks w su = Rows rs ->
  Exists (fun r => ~ has_date r) rs ->
  (ServerJs.find_selected_user body = ret su ->
   ServerJs.options_task_select w body = (options_error_trace su, Done tt))
  /\ (Part000.find_selected_user body = ret su ->
      Part000.options_task_select w body
      = ([SelectOpenTasks su; Ack (Some (map Part000.option_of_row rs))],
         Done tt))
  /\ (forall r s,
        due_date r = DueText s ->
        text (Part000.option_of_row r)
        = Part000.label_of_text (task_text r) ++ due_infix ++ s).
Proof.
  intros Ht Hq Hx. split; [|split].
  - intros Hf. rewrite (ProviderFacts.server_js_run w body su Hf Ht), Hq.
    rewrite (server_js_map_rows_undated rs Hx). reflexivity.
  - intros Hf. rewrite (ProviderFacts.part_000_run w body su Hf Ht), Hq.
    destruct rs; [inversion Hx | reflexivity].
  - intros r s Hd. unfold Part000.option_of_row. rewrite Hd. reflexivity.
Qed.

Lemma X20_rows_without_a_date_witness :
  let undated := {| id := 9; task_text := lit "Call Ann";
                    due_date := DueText (lit "2025-03-01") |} in
  truthy U1 = true
  /\ select_open_tasks (calm [ship_report; undated]) U1
     = Rows [ship_report; undated]
  /\ Exists (fun r => ~ has_date r) [ship_report; undated]
  /\ ServerJs.options_task_select (calm [ship_report; undated])
                                  (options_body picked_U1)
     = (options_error_trace U1, Done tt).
Proof.
  cbv zeta.
  assert (Hx : Exists (fun r => ~ has_date r)
                 [ship_report;
                  {| id := 9; task_text := lit "Call Ann";
                     due_date := DueText (lit "2025-03-01") |}]).
  { apply Exists_cons_tl, Exists_cons_hd. intros (d & Hd). discriminate Hd. }
  split; [reflexivity|]. split; [reflexivity|]. split; [exact Hx|].
  apply (proj1 (X20_rows_without_a_date
                  (calm [ship_report;
                         {| id := 9; task_text := lit "Call Ann";
                            due_date := DueText (lit "2025-03-01") |}])
                  (options_body picked_U1) U1 _ eq_refl eq_refl Hx)).
  reflexivity.
Defined.

End UndatedRows.
